(** * STRmix 2.7 database-search reader: model and properties

    A shallow embedding of [sm2_7_db_search_reader.py].  Python floats are
    IEEE-754 binary64 values and are modelled by Rocq's primitive floats;
    Python sets and dicts of strings are stdpp's [gset] and [gmap]; the
    [print] calls and the exceptions of the program are carried by a small
    writer-and-error monad. *)

From Stdlib Require Import Ascii String Floats DecimalString ZArith Lia.
From stdpp Require Import gmap strings list fin_maps.

Local Open Scope string_scope.
Local Open Scope list_scope.

(** ** Exceptions and console output *)

Module Py.

Inductive exn : Type :=
  | Exception (msg : string)
  | AttributeError
  | IndexError
  | KeyError
  | ValueError
  | TypeError.

Inductive outcome (A : Type) : Type :=
  | Return (a : A)
  | Raise (e : exn).
Arguments Return {A} a.
Arguments Raise {A} e.

(** A computation: the lines it printed, and how it ended. *)
Record M (A : Type) : Type := Run { stdout : list string; out : outcome A }.
Arguments Run {A} stdout out.
Arguments stdout {A} m.
Arguments out {A} m.

Definition ret {A} (a : A) : M A := Run [] (Return a).
Definition raise {A} (e : exn) : M A := Run [] (Raise e).
Definition print (line : string) : M unit := Run [line] (Return tt).

Definition bind {A B} (m : M A) (k : A -> M B) : M B :=
  match out m with
  | Return a => Run (stdout m ++ stdout (k a)) (out (k a))
  | Raise e => Run (stdout m) (Raise e)
  end.

(** Lifting of a silent computation. *)
Definition lift {A} (o : outcome A) : M A := Run [] o.

Definition obind {A B} (o : outcome A) (k : A -> outcome B) : outcome B :=
  match o with
  | Return a => k a
  | Raise e => Raise e
  end.

End Py.
Import Py.

Global Instance M_ret : MRet M := @ret.
Global Instance M_bind : MBind M := fun A B k m => bind m k.
Global Instance outcome_ret : MRet outcome := @Return.
Global Instance outcome_bind : MBind outcome := fun A B k o => obind o k.

(** ** Python string operations used by the program *)

(** [s.split(sep)] for a one-character separator: never empty. *)
Fixpoint split (sep : ascii) (s : string) : list string :=
  match s with
  | EmptyString => [""]
  | String c s' =>
      if Ascii.eqb c sep then "" :: split sep s'
      else match split sep s' with
           | [] => [String c ""]
           | t :: ts => String c t :: ts
           end
  end.

(** [s.count(c)] for a one-character pattern. *)
Fixpoint count (c : ascii) (s : string) : nat :=
  match s with
  | EmptyString => 0
  | String a s' => (if Ascii.eqb a c then 1 else 0) + count c s'
  end.

(** [sub in s]. *)
Fixpoint contains (sub s : string) : bool :=
  String.prefix sub s ||
  match s with
  | EmptyString => false
  | String _ s' => contains sub s'
  end.

(** [str(n)] for a natural number. *)
Definition str (n : nat) : string := NilZero.string_of_uint (Nat.to_uint n).

(** [l[i]], raising IndexError out of range. *)
Definition index {A} (l : list A) (i : nat) : outcome A :=
  match l !! i with
  | Some a => Return a
  | None => Raise IndexError
  end.

(** [l[-1]]. *)
Definition index_last {A} (l : list A) : outcome A :=
  match last l with
  | Some a => Return a
  | None => Raise IndexError
  end.

(** ** The parsed XML document (xml.etree.ElementTree) *)

#[local] Unset Elimination Schemes.
Inductive Element : Type :=
  Elem (tag : string) (attrib : gmap string string)
       (text : option string) (children : list Element).
#[local] Set Elimination Schemes.

Definition tag (e : Element) : string := let 'Elem t _ _ _ := e in t.
Definition attrib (e : Element) : gmap string string := let 'Elem _ a _ _ := e in a.
Definition text (e : Element) : option string := let 'Elem _ _ x _ := e in x.
Definition children (e : Element) : list Element := let 'Elem _ _ _ c := e in c.

(** [e.iter()]: the element and its descendants, in document order. *)
Fixpoint iter (e : Element) : list Element :=
  match e with
  | Elem _ _ _ cs => e :: flat_map iter cs
  end.

Definition has_tag (t : string) (e : Element) : bool := String.eqb (tag e) t.

(** [e.findall('.//t')]: the proper descendants with tag [t]. *)
Definition findall_desc (t : string) (e : Element) : list Element :=
  List.filter (has_tag t) (flat_map iter (children e)).

(** [e.find('.//t')]. *)
Definition find_desc (t : string) (e : Element) : option Element :=
  head (findall_desc t e).

(** [e.find('./t')] and [e.find('t')]: the first child with tag [t]. *)
Definition find_child (t : string) (e : Element) : option Element :=
  head (List.filter (has_tag t) (children e)).

(** [e.find(path).text], where a missing element gives [None.text]. *)
Definition text_of (o : option Element) : outcome (option string) :=
  match o with
  | Some e => Return (text e)
  | None => Raise AttributeError
  end.

(** [e.attrib[k]]. *)
Definition attrib_get (e : Element) (k : string) : outcome string :=
  match attrib e !! k with
  | Some v => Return v
  | None => Raise KeyError
  end.

(** ** Values stored in the exported rows *)

Inductive pyval : Type :=
  | PStr (s : string)
  | PNone
  | PFloat (x : float).

Definition of_text (o : option string) : pyval :=
  match o with
  | Some s => PStr s
  | None => PNone
  end.

(** ** Constants of the program *)

Definition LRCUTOFF : float := (-1)%float.

Definition mixDictionary : gmap string (list string) :=
  list_to_map
    [ ("M1-2", ["12M"; "14F"; ""; ""; ""]);
      ("M1-3", ["9F"; "21F"; "22M"; ""; ""]);
      ("M1-4", ["3F"; "5F"; "7M"; "16F"; ""]);
      ("M1-5", ["26M"; "27M"; "36F"; "37F"; "38F"]);
      ("M2-2", ["1M"; "22F"; ""; ""; ""]);
      ("M2-3", ["4M"; "8F"; "34F"; ""; ""]);
      ("M2-4", ["12F"; "17F"; "23F"; "25M"; ""]);
      ("M2-5", ["21M"; "28M"; "35F"; "39F"; "40F"]) ].

Definition duplicateSamplesDictionary : gmap string string :=
  list_to_map
    [ ("Mock_17", "16F"); ("Mock_8", "21M"); ("Mock_23_EC", "12F");
      ("Mock_26_B", "12F"); ("Mock_4", "8F"); ("Mock_19", "3F");
      ("Mock_6", "40F") ].

(** Samples with profiles that match other samples. *)
Definition duplicatesSet : gset string :=
  list_to_set
    [ "Mock_4"; "Mock_8"; "Mock_17"; "Mock_19"; "Mock_22_EC"; "Mock_22_SF";
      "Mock_23_EC"; "Mock_23_SF"; "Mock_24_EC"; "Mock_24_SF"; "Mock_26_A";
      "Mock_26_B"; "Mock_27_A"; "FD_1"; "FD_4"; "FD_6"; "FD_15"; "FD_19";
      "FD_20"; "FD_21B"; "FD_33B" ].

(** The header of the exported frame ([makeDataFrameAndExport]). *)
Definition columns : list string :=
  [ "Run Type"; "Case Number"; "Sample ID"; "Case Notes"; "Seed";
    "Contributors"; "True Contributors"; "Contributor 1"; "Contributor 2";
    "Contributor 3"; "Contributor 4"; "Contributor 5"; "True/Non";
    "Template RFU"; "Profile Type"; "Profile ID"; "LR" ].

(** ** The template-amount table (lines 61-74) *)

Record csv_row : Type := CsvRow { Sample_ID : string; DNA_Amounts : list float }.

(** [min(it)]: the first item is kept until a strictly smaller one is met. *)
Definition py_min (l : list float) : outcome float :=
  match l with
  | [] => Raise ValueError
  | x :: xs =>
      Return (fold_left (fun cur item => if PrimFloat.ltb item cur then item else cur) xs x)
  end.

Definition positive_amounts (x : list float) : list float :=
  List.filter (fun i => PrimFloat.ltb 0 i) x.

(** One turn of the loop over [ex4_data_temp]. *)
Definition lowest_of (x : list float) : M float :=
  match py_min (positive_amounts x) with
  | Return lowest => mret lowest
  | Raise ValueError => print "caught";; mret 0%float
  | Raise e => raise e
  end.

(** The frame restricted to the columns the extraction reads. *)
Definition decon_data (csv : list csv_row) : M (list (string * float)) :=
  temptemp ← mapM lowest_of (DNA_Amounts <$> csv);
  mret (zip (Sample_ID <$> csv) temptemp).

(** [decon_data.loc[decon_data['Sample ID'] == sampleID]["Lowest DNA Amount"].values[0]] *)
Definition lookup_lowest (table : list (string * float)) (sampleID : string) : outcome float :=
  index (snd <$> filter (fun r => fst r = sampleID) table) 0.

(** ** The contributor sets (lines 129-135) *)

Definition contributorsList (mix_num contributors : string) : M (list string) :=
  let mixCode := (mix_num ++ "-" ++ contributors)%string in
  match mixDictionary !! mixCode with
  | Some l => mret l
  | None => print "caught";; mret [""; ""; ""; ""; ""]
  end.

(** ** Comparison rows and the loop over them (lines 196-238) *)

(** One entry of [resultsList]: [[caseNumber, sample, lr text]]. *)
Record result_row : Type :=
  Result { r_caseNumber : string; r_sample : string; r_lr : option string }.

Definition set_sample (l : string) (r : result_row) : result_row :=
  Result (r_caseNumber r) l (r_lr r).

Definition cells (r : result_row) : list pyval :=
  [PStr (r_caseNumber r); PStr (r_sample r); of_text (r_lr r)].

Definition read_result (x : Element) : outcome result_row :=
  c ← attrib_get x "caseNumber";
  s ← attrib_get x "sample";
  l ← text_of (find_child "lr" x);
  mret (Result c s l).

Record loop_state : Type :=
  LoopState { alreadyAppendedSet : gset string; lrData : list (list pyval) }.

(** Line 199 and line 156: nothing seen, nothing appended. *)
Definition init : loop_state := LoopState ∅ [].

Section Extraction.

(** Python's [float] on text: [None] stands for its ValueError. *)
Variable py_float : string -> option float.

Definition float_of (v : option string) : outcome float :=
  match v with
  | None => Raise TypeError
  | Some s =>
      match py_float s with
      | Some x => Return x
      | None => Raise ValueError
      end
  end.

Section Document.

Variables (sampleData : list pyval) (contrib_list : list string) (lowest_DNA : float).

(** The row appended to [lrData] for a retained comparison. *)
Definition temp_of (true_or_non : string) (result : result_row) : list pyval :=
  sampleData ++ [PStr true_or_non; PFloat lowest_DNA] ++ cells result.

(** The body of [for result in resultsList]. *)
Definition loop_body (st : loop_state) (result : result_row) : outcome loop_state :=
  if decide (r_sample result ∈ duplicatesSet) then mret st
  else if decide (r_sample result = "40F") then mret st
  else
    let result :=
      if decide (r_sample result = "Mock_6") then set_sample "40F" result else result in
    if decide (r_sample result ∈ alreadyAppendedSet st) then mret st
    else
      let seen := {[r_sample result]} ∪ alreadyAppendedSet st in
      let true_or_non :=
        if decide (r_sample result ∈ contrib_list) then "True" else "Non-Contributor" in
      x ← float_of (r_lr result);
      if PrimFloat.ltb LRCUTOFF x || bool_decide (r_sample result ∈ contrib_list)
      then mret (LoopState seen (lrData st ++ [temp_of true_or_non result]))
      else mret (LoopState seen (lrData st)).

Fixpoint loop (st : loop_state) (resultsList : list result_row) : outcome loop_state :=
  match resultsList with
  | [] => mret st
  | result :: rest => st' ← loop_body st result; loop st' rest
  end.

(** The loop started afresh, and the rows it leaves in [lrData]. *)
Definition normalizer (resultsList : list result_row) : outcome (list (list pyval)) :=
  st ← loop init resultsList; mret (lrData st).

End Document.

(** ** Extraction of one document (lines 139-241) *)

(** Lines 150-193: the header fields, the contributor set and the sample id. *)
Definition header (file : string) (tree : Element)
  : M (list pyval * list string * string) :=
  print ("Current file: " ++ file)%string;;
  match find_child "databaseSearchResults" tree with
  | Some _ => mret tt
  | None =>
      raise (Exception ("The file: " ++ file ++ " is not a DB search result file.")%string)
  end;;
  caseNumber ← lift (text_of (find_desc "caseNumber" tree));
  sampleId ← lift (text_of (find_desc "sampleId" tree));
  sampleID ← lift (match sampleId with
                   | Some s => Return s
                   | None => Raise AttributeError
                   end);
  mixNumber ← lift (index (split "_" sampleID) 0);
  suffix ← lift (index (split "_" sampleID) 1);
  let trueContributorCount := str (count "-" suffix + 1) in
  let caseNotes :=
    match find_desc "caseNotes" tree with
    | Some e => of_text (text e)
    | None => PStr ""
    end in
  seed ← lift (text_of (find_desc "seed" tree));
  contributors ← lift (text_of (find_desc "contributors" tree));
  let sampleData :=
    [PStr "DB Search"; of_text caseNumber; PStr sampleID; caseNotes;
     of_text seed; of_text contributors; PStr trueContributorCount] in
  contrib_list ←
    (if contains "SS" mixNumber then
       final ← lift (index_last (split "_" sampleID));
       true_contrib ← lift (index (split " " final) 0);
       mret [true_contrib; ""; ""; ""; ""]
     else contributorsList mixNumber trueContributorCount);
  print ("Sample ID: " ++ sampleID)%string;;
  mret (sampleData ++ (PStr <$> contrib_list), contrib_list, sampleID).

Definition parseResultsXMLFile (table : list (string * float))
    (file : string) (tree : Element) : M (list (list pyval)) :=
  '(sampleData, contrib_list, sampleID) ← header file tree;
  lowest_DNA ← lift (lookup_lowest table sampleID);
  match find_desc "stdResult" tree with
  | Some _ =>
      resultsList ← lift (mapM read_result (findall_desc "stdResult" tree));
      st ← lift (loop sampleData contrib_list lowest_DNA init resultsList);
      mret (lrData st)
  | None => mret []
  end.

(** ** The run over all documents (lines 287-296) *)

(** The loop of [main] over the files that [glob] found, each with its parsed
    tree. *)
Fixpoint main_loop (table : list (string * float)) (files : list (string * Element))
    (lr_array : list (list pyval)) : M (list (list pyval)) :=
  match files with
  | [] => mret lr_array
  | (x, tree) :: rest =>
      print ("Current file: " ++ x)%string;;
      temp_array ← parseResultsXMLFile table x tree;
      main_loop table rest (lr_array ++ temp_array)
  end.

(** [main] up to the call of [makeDataFrameAndExport]: the array handed to it. *)
Definition main (table : list (string * float)) (files : list (string * Element))
  : M (list (list pyval)) :=
  main_loop table files [].

End Extraction.

(** ** Concrete inputs used in the examples *)

(** The values of Python's [float] on the LR texts of the examples. *)
Definition float_literals (s : string) : option float :=
  if decide (s = "0.5") then Some 0.5%float
  else if decide (s = "-5") then Some (-5)%float
  else if decide (s = "-1") then Some (-1)%float
  else if decide (s = "2.0") then Some 2%float
  else if decide (s = "5.0") then Some 5%float
  else if decide (s = "10") then Some 10%float
  else None.

Definition leaf (t s : string) : Element := Elem t ∅ (Some s) [].

Definition stdResult (caseNumber sample lr : string) : Element :=
  Elem "stdResult" {[ "caseNumber" := caseNumber; "sample" := sample ]} None
       [leaf "lr" lr].

(** A database-search document for sample [sampleId] with the given rows. *)
Definition document (sampleId : string) (results : list Element) : Element :=
  Elem "strmix" ∅ None
    [ Elem "databaseSearchResults" ∅ None [];
      Elem "caseDetails" ∅ None
        [leaf "caseNumber" "C-1"; leaf "sampleId" sampleId; leaf "seed" "42"];
      leaf "contributors" "3";
      Elem "results" ∅ None results ].

(** ** Vocabulary for the properties of the row loop *)

(** Lines 205-208: the rows dropped whatever else they carry. *)
Definition excluded (r : result_row) : Prop :=
  r_sample r ∈ duplicatesSet \/ r_sample r = "40F".

(** Lines 210-211: the rewrite of the alias label. *)
Definition alias (l : string) : string :=
  if decide (l = "Mock_6") then "40F" else l.

(** The compared label of a row after the rewrite. *)
Definition label (r : result_row) : string := alias (r_sample r).

(** Lines 224-229. *)
Definition classify (contrib_list : list string) (l : string) : string :=
  if decide (l ∈ contrib_list) then "True" else "Non-Contributor".

(** The exported row of a retained comparison (lines 234-237). *)
Definition record_of (sampleData : list pyval) (contrib_list : list string)
    (lowest_DNA : float) (r : result_row) : list pyval :=
  temp_of sampleData lowest_DNA (classify contrib_list (label r))
          (set_sample (label r) r).

(** The comparison carried by an exported row: its last three cells. *)
Definition result_of (temp : list pyval) : result_row :=
  match rev temp with
  | lr :: PStr s :: PStr c :: _ =>
      Result c s (match lr with PStr t => Some t | _ => None end)
  | _ => Result "" "" None
  end.

Definition label_of (temp : list pyval) : string := r_sample (result_of temp).

(** The rows of a list that are not dropped by the two exclusions and carry
    the label [l] after the rewrite. *)
Definition occurs (l : string) (rs : list result_row) : Prop :=
  exists r, r ∈ rs /\ ~ excluded r /\ label r = l.

Global Instance excluded_dec (r : result_row) : Decision (excluded r) :=
  ltac:(unfold excluded; apply _).

(** Line 233: the LR text converts to a number that is above the cutoff, or
    the label is a true contributor. *)
Definition retained (py_float : string -> option float) (contrib_list : list string)
    (k : result_row) : Prop :=
  exists x, float_of py_float (r_lr k) = Return x /\
    ((PrimFloat.ltb LRCUTOFF x || bool_decide (label k ∈ contrib_list)) = true).

(** Line 69: [m] is the least of the amounts of [x] above zero, or zero when
    there is none. *)
Definition is_lowest (x : list float) (m : float) : Prop :=
  (m ∈ x /\ PrimFloat.ltb 0 m = true /\
   forall y, y ∈ x -> PrimFloat.ltb 0 y = true -> PrimFloat.leb m y = true)
  \/ ((forall y, y ∈ x -> PrimFloat.ltb 0 y = false) /\ m = 0%float).


(** Lines 210-211 on a whole row: the row as the loop goes on with it. *)
Definition rewrite_alias (r : result_row) : result_row := set_sample (label r) r.

(** ** A worked document *)

(** The header cells, contributor set and template amount of a document for
    sample [M1_9F-21F-22M]. *)
Definition ex_contrib : list string := ["9F"; "21F"; "22M"; ""; ""].

Definition ex_sampleData : list pyval :=
  [PStr "DB Search"; PStr "C-1"; PStr "M1_9F-21F-22M"; PStr ""; PStr "42";
   PStr "3"; PStr "3"] ++ (PStr <$> ex_contrib).

Definition ex_lowest : float := 3%float.

Definition ex_table : list (string * float) := [("M1_9F-21F-22M", ex_lowest)].

Definition ex_row (sample lr : string) : result_row := Result "Ref" sample (Some lr).

Definition ex_record (sample lr : string) : list pyval :=
  record_of ex_sampleData ex_contrib ex_lowest (ex_row sample lr).

Definition ex_normalizer : list result_row -> outcome (list (list pyval)) :=
  normalizer float_literals ex_sampleData ex_contrib ex_lowest.

(** The document of sample [M1_9F-21F-22M], and one whose sample is not in
    [ex_table]. *)
Definition ex_doc : Element :=
  document "M1_9F-21F-22M" [stdResult "Ref" "9F" "-5"; stdResult "Ref" "X" "2.0"].

Definition ex_doc_absent : Element :=
  document "M2_4M-8F" [stdResult "Ref" "4M" "10"].

(** * Properties *)

(** ** The monad *)

Lemma bind_out {A B} (m : M A) (k : A -> M B) :
  out (m ≫= k) = match out m with Return a => out (k a) | Raise e => Raise e end.
Proof. unfold mbind, M_bind, bind. by destruct (out m). Qed.

Lemma bind_stdout_raise {A B} (m : M A) (k : A -> M B) e :
  out m = Raise e -> m ≫= k = Run (stdout m) (Raise e).
Proof. intros H. unfold mbind, M_bind, bind. by rewrite H. Qed.

Lemma bind_return {A B} (m : M A) (k : A -> M B) a :
  out m = Return a -> m ≫= k = Run (stdout m ++ stdout (k a)) (out (k a)).
Proof. intros H. unfold mbind, M_bind, bind. by rewrite H. Qed.

(** ** The string operations on the sample ids of the data *)

Example split_ex : split "_" "M1_9F-21F-22M_rep1" = ["M1"; "9F-21F-22M"; "rep1"].
Proof. reflexivity. Qed.

Example split_none : split "_" "M1" = ["M1"].
Proof. reflexivity. Qed.

Example count_ex : str (count "-" "9F-21F-22M" + 1) = "3".
Proof. reflexivity. Qed.

Example contains_ex : contains "SS" "xSSy" = true /\ contains "SS" "M1" = false.
Proof. split; reflexivity. Qed.

(** A single-source sample: the contributor is the last token of the id. *)
Example single_source_ex :
  out (header "s.xml" (document "SS1_12M rep2" []))
  = Return ([PStr "DB Search"; PStr "C-1"; PStr "SS1_12M rep2"; PStr ""; PStr "42";
             PStr "3"; PStr "1"; PStr "12M"; PStr ""; PStr ""; PStr ""; PStr ""],
            ["12M"; ""; ""; ""; ""], "SS1_12M rep2").
Proof. vm_compute. reflexivity. Qed.

(** ** Order of the positive floats *)

Lemma SF_positive f :
  SFltb (S754_zero false) f = true ->
  f = S754_infinity false \/ exists m e, f = S754_finite false m e.
Proof.
  destruct f as [s | [|] | | [|] m e]; try discriminate; eauto.
Qed.

Lemma positive_float x :
  PrimFloat.ltb 0 x = true ->
  Prim2SF x = S754_infinity false \/ exists m e, Prim2SF x = S754_finite false m e.
Proof. rewrite ltb_spec. apply SF_positive. Qed.

Ltac float_order :=
  repeat match goal with
    | H : PrimFloat.ltb 0 ?x = true |- _ =>
        apply positive_float in H as [H | (? & ? & H)]
    end;
  rewrite ?ltb_spec, ?leb_spec in *;
  repeat match goal with H : Prim2SF _ = _ |- _ => rewrite H in *; clear H end;
  unfold SFltb, SFleb, SFcompare in *;
  repeat match goal with
    | |- context [Z.compare ?a ?b] => destruct (Z.compare_spec a b)
    | H : context [Z.compare ?a ?b] |- _ => destruct (Z.compare_spec a b)
    | |- context [Pos.compare_cont Eq ?a ?b] =>
        change (Pos.compare_cont Eq a b) with (Pos.compare a b);
        destruct (Pos.compare_spec a b)
    | H : context [Pos.compare_cont Eq ?a ?b] |- _ =>
        change (Pos.compare_cont Eq a b) with (Pos.compare a b) in H;
        destruct (Pos.compare_spec a b)
    end;
  try discriminate; try reflexivity; try lia.

Lemma float_leb_refl a : PrimFloat.ltb 0 a = true -> PrimFloat.leb a a = true.
Proof. intros Ha. float_order. Qed.

Lemma float_leb_total a b :
  PrimFloat.ltb 0 a = true -> PrimFloat.ltb 0 b = true ->
  PrimFloat.ltb a b = false -> PrimFloat.leb b a = true.
Proof. intros Ha Hb Hab. float_order. Qed.

Lemma float_ltb_leb_trans a b c :
  PrimFloat.ltb 0 a = true -> PrimFloat.ltb 0 b = true -> PrimFloat.ltb 0 c = true ->
  PrimFloat.ltb a b = true -> PrimFloat.leb b c = true -> PrimFloat.leb a c = true.
Proof. intros Ha Hb Hc Hab Hbc. float_order. Qed.

Lemma float_leb_trans a b c :
  PrimFloat.ltb 0 a = true -> PrimFloat.ltb 0 b = true -> PrimFloat.ltb 0 c = true ->
  PrimFloat.leb a b = true -> PrimFloat.leb b c = true -> PrimFloat.leb a c = true.
Proof. intros Ha Hb Hc Hab Hbc. float_order. Qed.

Lemma float_leb_ltb_trans a b c :
  PrimFloat.ltb 0 a = true -> PrimFloat.ltb 0 b = true -> PrimFloat.ltb 0 c = true ->
  PrimFloat.leb a b = true -> PrimFloat.ltb b c = true -> PrimFloat.leb a c = true.
Proof. intros Ha Hb Hc Hab Hbc. float_order. Qed.

(** ** The lowest positive template amount *)

Abbreviation smaller := (fun cur item : float => if PrimFloat.ltb item cur then item else cur).

Lemma fold_min xs : forall cur,
  PrimFloat.ltb 0 cur = true ->
  Forall (fun y => PrimFloat.ltb 0 y = true) xs ->
  let m := fold_left smaller xs cur in
  (m = cur \/ m ∈ xs) /\ PrimFloat.ltb 0 m = true /\ PrimFloat.leb m cur = true /\
  Forall (fun y => PrimFloat.leb m y = true) xs.
Proof.
  induction xs as [| item xs IH]; intros cur Hcur Hxs; simpl.
  - split_and!; [by left | done | by apply float_leb_refl | constructor].
  - apply Forall_cons in Hxs as [Hitem Hxs].
    destruct (PrimFloat.ltb item cur) eqn:Hlt.
    + destruct (IH item Hitem Hxs) as (Hm & Hpos & Hle & Hall).
      split_and!; [| done | | by constructor].
      * destruct Hm as [-> | Hm]; right; [left | by right].
      * apply float_leb_ltb_trans with item; done.
    + destruct (IH cur Hcur Hxs) as (Hm & Hpos & Hle & Hall).
      split_and!; [| done | done |].
      * destruct Hm as [-> | Hm]; [by left | right; by right].
      * constructor; [| done].
        apply float_leb_trans with cur; try done. by apply float_leb_total.
Qed.

Lemma positive_amounts_spec x y :
  y ∈ positive_amounts x <-> y ∈ x /\ PrimFloat.ltb 0 y = true.
Proof. unfold positive_amounts. by rewrite !list_elem_of_In, filter_In. Qed.

Lemma lowest_of_spec x :
  exists m, (lowest_of x = Run [] (Return m) \/ lowest_of x = Run ["caught"] (Return m)) /\
            is_lowest x m.
Proof.
  unfold lowest_of, py_min.
  destruct (positive_amounts x) as [| y ys] eqn:Hpos.
  - exists 0%float. split; [by right |]. right. split; [| done].
    intros y Hy. destruct (PrimFloat.ltb 0 y) eqn:Hlt; [| done].
    assert (Hin : y ∈ positive_amounts x) by by apply positive_amounts_spec.
    rewrite Hpos in Hin. by apply elem_of_nil in Hin.
  - assert (Hall : Forall (fun y => PrimFloat.ltb 0 y = true) (y :: ys)).
    { rewrite <- Hpos. apply Forall_forall. intros z Hz.
      by apply positive_amounts_spec in Hz as [_ ?]. }
    apply Forall_cons in Hall as [Hy Hys].
    destruct (fold_min ys y Hy Hys) as (Hm & Hmpos & Hle & Hmin).
    eexists. split; [by left |]. left. split_and!; [| done |].
    + apply (positive_amounts_spec x). rewrite Hpos.
      destruct Hm as [-> | Hm]; [left | by right].
    + intros z Hz Hzpos.
      assert (Hin : z ∈ y :: ys) by (rewrite <- Hpos; by apply positive_amounts_spec).
      apply elem_of_cons in Hin as [-> | Hin]; [done |].
      rewrite Forall_forall in Hmin. by apply Hmin.
Qed.

Lemma mapM_lowest_of rows :
  exists lows, out (mapM lowest_of rows) = Return lows /\
               Forall2 is_lowest rows lows.
Proof.
  induction rows as [| x rows (lows & Hout & Hall)]; [by exists [] |].
  destruct (lowest_of_spec x) as (m & Hm & Hlow).
  exists (m :: lows). split; [| by constructor].
  simpl. rewrite bind_out.
  assert (Hx : out (lowest_of x) = Return m) by (by destruct Hm as [-> | ->]).
  rewrite Hx, bind_out, Hout. done.
Qed.

(** C5. Every row of the template-amount table gets the least of its
    amounts above zero, and zero when no amount is above zero. *)
Theorem lowest_positive_amount :
  (forall csv, exists lows,
     out (decon_data csv) = Return (zip (Sample_ID <$> csv) lows) /\
     Forall2 (fun row m => is_lowest (DNA_Amounts row) m) csv lows) /\
  out (lowest_of [0; -1; 5; 3; 0]%float) = Return 3%float /\
  out (lowest_of [0; 0; 0; 0; 0]%float) = Return 0%float.
Proof.
  split_and!; [| done | done].
  intros csv. destruct (mapM_lowest_of (DNA_Amounts <$> csv)) as (lows & Hout & Hall).
  exists lows. split.
  - unfold decon_data. by rewrite bind_out, Hout.
  - by apply (Forall2_fmap_l DNA_Amounts) in Hall.
Qed.

(** ** The contributor-set resolver *)

Lemma mixDictionary_slots :
  map_Forall (fun _ l => length l = 5) mixDictionary.
Proof. apply (bool_decide_unpack _). vm_compute. exact I. Qed.

(** C8. The resolver always returns five slots: the entry of the table for
    a key it holds, and five empty strings, after printing a diagnostic and
    without raising, for every key it does not hold. *)
Theorem contributor_set_resolver :
  (forall mix_num contributors, exists l,
     out (contributorsList mix_num contributors) = Return l /\ length l = 5) /\
  (forall mix_num contributors l,
     mixDictionary !! (mix_num ++ "-" ++ contributors)%string = Some l ->
     contributorsList mix_num contributors = Run [] (Return l)) /\
  (forall mix_num contributors,
     mixDictionary !! (mix_num ++ "-" ++ contributors)%string = None ->
     contributorsList mix_num contributors = Run ["caught"] (Return [""; ""; ""; ""; ""])) /\
  contributorsList "M1" "3" = Run [] (Return ["9F"; "21F"; "22M"; ""; ""]) /\
  contributorsList "M9" "9" = Run ["caught"] (Return [""; ""; ""; ""; ""]).
Proof.
  split_and!.
  - intros mix_num contributors. unfold contributorsList.
    destruct (mixDictionary !! _) as [l |] eqn:Hl.
    + exists l. split; [done |]. by apply mixDictionary_slots in Hl.
    + by eexists.
  - intros mix_num contributors l Hl. unfold contributorsList. by rewrite Hl.
  - intros mix_num contributors Hl. unfold contributorsList. by rewrite Hl.
  - vm_compute. reflexivity.
  - vm_compute. reflexivity.
Qed.

(** ** Exported rows and the comparisons they carry *)

Lemma result_of_temp_of sampleData lowest_DNA ton r :
  result_of (temp_of sampleData lowest_DNA ton r) = r.
Proof.
  unfold result_of, temp_of, cells. rewrite !rev_app_distr. destruct r as [c s [t|]]; done.
Qed.

Lemma alias_not_Mock_6 l : alias l ≠ "Mock_6".
Proof. unfold alias. by case_decide. Qed.

Lemma alias_idemp l : alias (alias l) = alias l.
Proof. unfold alias at 1. case_decide as H; [by apply alias_not_Mock_6 in H | done]. Qed.

Lemma duplicatesSet_40F : "40F" ∉ duplicatesSet.
Proof. apply (bool_decide_eq_false_1 ("40F" ∈ duplicatesSet)). vm_compute. reflexivity. Qed.

Lemma label_not_duplicate r : ~ excluded r -> label r ∉ duplicatesSet.
Proof.
  unfold excluded, label, alias. intros Hex. case_decide.
  - apply duplicatesSet_40F.
  - tauto.
Qed.

Lemma occurs_nil l : occurs l [] <-> False.
Proof. split; [| done]. intros (r & Hr & _). by apply elem_of_nil in Hr. Qed.

Lemma occurs_cons l r rs :
  occurs l (r :: rs) <-> (~ excluded r /\ label r = l) \/ occurs l rs.
Proof.
  unfold occurs. split.
  - intros (k & Hk & Hex & Hl). apply elem_of_cons in Hk as [-> | Hk]; [by left |].
    right. by exists k.
  - intros [[Hex Hl] | (k & Hk & Hex & Hl)].
    + exists r. split_and!; [left | done | done].
    + exists k. split_and!; [by right | done | done].
Qed.

Lemma occurs_app l rs1 rs2 :
  occurs l (rs1 ++ rs2) <-> occurs l rs1 \/ occurs l rs2.
Proof.
  induction rs1 as [| r rs1 IH]; simpl.
  - rewrite occurs_nil. tauto.
  - rewrite !occurs_cons, IH. tauto.
Qed.

Section Rows.

Variable py_float : string -> option float.
Variables (sampleData : list pyval) (contrib_list : list string) (lowest_DNA : float).

Abbreviation body := (loop_body py_float sampleData contrib_list lowest_DNA).
Abbreviation run := (loop py_float sampleData contrib_list lowest_DNA).
Abbreviation record := (record_of sampleData contrib_list lowest_DNA).
Abbreviation normalize := (normalizer py_float sampleData contrib_list lowest_DNA).

Lemma label_of_record r : label_of (record r) = label r.
Proof. unfold label_of, record_of. by rewrite result_of_temp_of. Qed.

Lemma result_of_record r : result_of (record r) = set_sample (label r) r.
Proof. unfold record_of. by rewrite result_of_temp_of. Qed.

(** *** One turn of the loop *)

Lemma loop_body_excluded st r : excluded r -> body st r = Return st.
Proof.
  intros [H | H]; unfold loop_body.
  - by rewrite decide_True.
  - case_decide; [done |]. by rewrite decide_True.
Qed.

Lemma loop_body_seen st r :
  label r ∈ alreadyAppendedSet st -> body st r = Return st.
Proof.
  intros H. unfold loop_body.
  destruct (decide (r_sample r ∈ duplicatesSet)); [done |].
  destruct (decide (r_sample r = "40F")); [done |].
  rewrite decide_True; [done |].
  revert H. unfold label, alias. by case_decide.
Qed.

Lemma loop_body_fresh st r :
  ~ excluded r -> label r ∉ alreadyAppendedSet st ->
  body st r =
    x ← float_of py_float (r_lr r);
    mret (LoopState ({[label r]} ∪ alreadyAppendedSet st)
            (if PrimFloat.ltb LRCUTOFF x || bool_decide (label r ∈ contrib_list)
             then lrData st ++ [record r] else lrData st)).
Proof.
  intros Hex Hnew. unfold loop_body, excluded in *.
  rewrite decide_False by tauto. rewrite decide_False by tauto.
  assert (Hrw : (if decide (r_sample r = "Mock_6") then set_sample "40F" r else r)
                = set_sample (label r) r).
  { unfold label, alias. case_decide; [done |]. by destruct r. }
  rewrite Hrw. simpl. rewrite decide_False by done.
  destruct (float_of py_float (r_lr r)) as [x|e]; [| done]. simpl.
  unfold record_of, classify. by destruct (_ || _).
Qed.

Lemma loop_app st rs1 rs2 :
  run st (rs1 ++ rs2) = st' ← run st rs1; run st' rs2.
Proof.
  revert st. induction rs1 as [| r rs1 IH]; intros st; [done |].
  simpl. destruct (body st r) as [st1|e]; [apply IH | done].
Qed.

(** *** The whole loop: what it appends and which labels it has seen *)

Abbreviation kept := (retained py_float contrib_list).

Lemma loop_trace rs : forall st st',
  run st rs = Return st' ->
  exists ks,
    lrData st' = lrData st ++ (record <$> ks) /\
    (forall l, l ∈ alreadyAppendedSet st' <-> l ∈ alreadyAppendedSet st \/ occurs l rs) /\
    Forall (fun k => k ∈ rs /\ ~ excluded k /\ (label k ∉ alreadyAppendedSet st) /\ kept k) ks /\
    NoDup (label <$> ks).
Proof.
  induction rs as [| r rs IH]; intros st st' Hrun.
  - injection Hrun as <-. exists [].
    split_and!; [by rewrite app_nil_r | intros l; rewrite occurs_nil; tauto
                | constructor | constructor].
  - simpl in Hrun.
    destruct (decide (excluded r)) as [Hex | Hex].
    { rewrite loop_body_excluded in Hrun by done.
      destruct (IH _ _ Hrun) as (ks & Hdata & Hseen & Hks & Hnd). exists ks.
      split_and!; [done | | | done].
      - intros l. rewrite Hseen, occurs_cons. tauto.
      - eapply Forall_impl; [exact Hks |]. simpl. intros k (? & ? & ? & ?).
        rewrite elem_of_cons. tauto. }
    destruct (decide (label r ∈ alreadyAppendedSet st)) as [Hin | Hnew].
    { rewrite loop_body_seen in Hrun by done.
      destruct (IH _ _ Hrun) as (ks & Hdata & Hseen & Hks & Hnd). exists ks.
      split_and!; [done | | | done].
      - intros l. rewrite Hseen, occurs_cons.
        split; [tauto |]. intros [? | [[_ <-] | ?]]; tauto.
      - eapply Forall_impl; [exact Hks |]. simpl. intros k (? & ? & ? & ?).
        rewrite elem_of_cons. tauto. }
    rewrite loop_body_fresh in Hrun by done.
    destruct (float_of py_float (r_lr r)) as [x | e] eqn:Hx; [| done].
    simpl in Hrun.
    destruct (IH _ _ Hrun) as (ks & Hdata & Hseen & Hks & Hnd). simpl in *.
    assert (Hks' : Forall (fun k => k ∈ r :: rs /\ ~ excluded k /\
                             (label k ∉ alreadyAppendedSet st) /\ kept k) ks).
    { eapply Forall_impl; [exact Hks |]. simpl. intros k (? & ? & Hk & ?).
      apply not_elem_of_union in Hk as [_ Hk].
      rewrite elem_of_cons. split_and!; [tauto | done | done | done]. }
    assert (Hseen' : forall l, l ∈ alreadyAppendedSet st' <->
                       l ∈ alreadyAppendedSet st \/ occurs l (r :: rs)).
    { intros l. rewrite Hseen, occurs_cons, elem_of_union, elem_of_singleton.
      split; [intros [[->|?]|?]; tauto | intros [?|[[_ <-]|?]]; tauto]. }
    destruct (PrimFloat.ltb LRCUTOFF x || _) eqn:Hkeep.
    + exists (r :: ks). split_and!; [| done | |].
      * rewrite Hdata, fmap_cons, <- app_assoc. done.
      * constructor; [| done]. split_and!; [left | done | done | by exists x].
      * rewrite fmap_cons. constructor; [| done].
        intros (k & Hlk & Hk)%list_elem_of_fmap.
        rewrite Forall_forall in Hks. destruct (Hks k Hk) as (_ & _ & Hfresh & _).
        apply Hfresh. rewrite <- Hlk. apply elem_of_union. left. by apply elem_of_singleton.
    + by exists ks.
Qed.

Lemma normalizer_Return rows data :
  normalize rows = Return data <-> exists st', run init rows = Return st' /\ lrData st' = data.
Proof.
  unfold normalizer. destruct (run init rows) as [st | e]; simpl.
  - split; [intros [= <-]; by exists st | by intros (? & [= <-] & <-)].
  - split; [done | by intros (? & ? & _)].
Qed.

(** A row that is excluded, or whose label an earlier row already carried,
    leaves no trace: the loop runs as if the row were not there. *)
Lemma loop_drop st pre r post :
  excluded r \/ occurs (label r) pre ->
  run st (pre ++ r :: post) = run st (pre ++ post).
Proof.
  intros Hr. rewrite !loop_app.
  destruct (run st pre) as [st1 | e] eqn:Hpre; [| done]. simpl.
  assert (Hbody : body st1 r = Return st1).
  { destruct Hr as [Hex | Hocc]; [by apply loop_body_excluded |].
    apply loop_body_seen.
    destruct (loop_trace _ _ _ Hpre) as (_ & _ & Hseen & _). apply Hseen. by right. }
  by rewrite Hbody.
Qed.

(** The output around the first occurrence of a label. *)
Lemma loop_first_occurrence pre r post st' :
  run init (pre ++ r :: post) = Return st' ->
  ~ excluded r -> ~ occurs (label r) pre ->
  exists x ks1 ks2,
    float_of py_float (r_lr r) = Return x /\
    lrData st' =
      (record <$> ks1) ++
      (if PrimFloat.ltb LRCUTOFF x || bool_decide (label r ∈ contrib_list)
       then [record r] else []) ++ (record <$> ks2) /\
    Forall (fun k => label k ≠ label r) ks1 /\
    Forall (fun k => label k ≠ label r) ks2.
Proof.
  intros Hrun Hex Hfirst. rewrite loop_app in Hrun.
  destruct (run init pre) as [st1 | e] eqn:Hpre; [| done]. simpl in Hrun.
  destruct (loop_trace _ _ _ Hpre) as (ks1 & Hd1 & Hseen1 & Hks1 & _).
  assert (Hnew : label r ∉ alreadyAppendedSet st1).
  { rewrite Hseen1. simpl. intros [H | H]; [by apply not_elem_of_empty in H | done]. }
  rewrite loop_body_fresh in Hrun by done.
  destruct (float_of py_float (r_lr r)) as [x | e] eqn:Hx; [| done]. simpl in Hrun.
  destruct (loop_trace _ _ _ Hrun) as (ks2 & Hd2 & _ & Hks2 & _). simpl in *.
  exists x, ks1, ks2. split_and!; [done | | |].
  - rewrite Hd2, Hd1. by destruct (_ || _); rewrite <- ?app_assoc, ?app_nil_r.
  - eapply Forall_impl; [exact Hks1 |]. simpl. intros k (Hk & Hkex & _) Heq.
    apply Hfirst. by exists k.
  - eapply Forall_impl; [exact Hks2 |]. simpl. intros k (_ & _ & Hk & _) Heq.
    apply Hk. rewrite Heq. apply elem_of_union. left. by apply elem_of_singleton.
Qed.

Lemma record_not_in ks l :
  Forall (fun k => label k ≠ l) ks ->
  forall t, t ∈ record <$> ks -> label_of t ≠ l.
Proof.
  intros Hks t (k & -> & Hk)%list_elem_of_fmap. rewrite label_of_record.
  rewrite Forall_forall in Hks. by apply Hks.
Qed.

Lemma filter_label_none ks l :
  Forall (fun k => label k ≠ l) ks ->
  filter (fun t => label_of t = l) (record <$> ks) = [].
Proof.
  induction 1 as [| k ks Hk _ IH]; [done |].
  rewrite fmap_cons, filter_cons_False; [done |]. by rewrite label_of_record.
Qed.

(** ** The inclusion filter *)

(** C1. A row that passes the duplicate-set exclusion and the reserved-label
    exclusion and is the first of its (rewritten) label is in the output
    exactly when its LR is strictly above the cutoff or its label is in the
    contributor set; a true contributor is in the output whatever its LR. *)
Theorem inclusion_filter pre r post data x :
  normalize (pre ++ r :: post) = Return data ->
  ~ excluded r -> ~ occurs (label r) pre ->
  float_of py_float (r_lr r) = Return x ->
  (record r ∈ data <->
     PrimFloat.ltb LRCUTOFF x = true \/ label r ∈ contrib_list) /\
  (label r ∈ contrib_list -> record r ∈ data).
Proof.
  intros (st' & Hrun & <-)%normalizer_Return Hex Hfirst Hx.
  destruct (loop_first_occurrence _ _ _ _ Hrun Hex Hfirst)
    as (x' & ks1 & ks2 & Hx' & Hdata & Hks1 & Hks2).
  rewrite Hx in Hx'. injection Hx' as <-.
  assert (Hiff : record r ∈ lrData st' <->
            PrimFloat.ltb LRCUTOFF x = true \/ label r ∈ contrib_list).
  { rewrite Hdata. clear Hdata.
    assert (Hb : PrimFloat.ltb LRCUTOFF x = true \/ label r ∈ contrib_list <->
                 (PrimFloat.ltb LRCUTOFF x || bool_decide (label r ∈ contrib_list)) = true).
    { rewrite orb_true_iff, bool_decide_eq_true. tauto. }
    rewrite Hb. clear Hb.
    destruct (_ || _).
    - split; [done |]. intros _. rewrite !elem_of_app, list_elem_of_singleton. tauto.
    - split; [| done]. rewrite app_nil_l, elem_of_app.
      intros [H | H];
        [apply (record_not_in _ _ Hks1) in H | apply (record_not_in _ _ Hks2) in H];
        by rewrite label_of_record in H. }
  split; [done |]. intros Hin. apply Hiff. by right.
Qed.

(** ** First occurrence wins *)

(** C6 (amended). First occurrence wins among the rows that pass the two
    exclusions: when two rows carry the same label after the rewrite and
    the earlier one passes both exclusions and is the first such row of its
    label, the later one is dropped, the loop running as if it were absent.
    Of that label only this first row can be in the output, and it is its
    only row there when its LR is above the cutoff. *)
Theorem first_occurrence_wins pre r1 mid r2 post data :
  normalize (pre ++ r1 :: mid ++ r2 :: post) = Return data ->
  ~ excluded r1 -> ~ occurs (label r1) pre -> label r2 = label r1 ->
  normalize (pre ++ r1 :: mid ++ post) = Return data /\
  (forall t, t ∈ data -> label_of t = label r1 -> t = record r1) /\
  (kept r1 -> filter (fun t => label_of t = label r1) data = [record r1]).
Proof.
  intros Hnorm Hex Hfirst Hlab.
  pose proof Hnorm as (st' & Hrun & <-)%normalizer_Return.
  destruct (loop_first_occurrence _ _ _ _ Hrun Hex Hfirst)
    as (x & ks1 & ks2 & Hx & Hdata & Hks1 & Hks2).
  split_and!.
  - rewrite <- Hnorm. unfold normalizer. f_equal. symmetry.
    pose proof (loop_drop init (pre ++ r1 :: mid) r2 post) as Hdrop.
    rewrite <- !app_assoc in Hdrop. apply Hdrop.
    right. rewrite Hlab, occurs_app, occurs_cons. tauto.
  - intros t Ht Hl. rewrite Hdata, !elem_of_app in Ht.
    destruct Ht as [Ht | [Ht | Ht]].
    + by apply (record_not_in _ _ Hks1) in Ht.
    + destruct (_ || _); [by apply list_elem_of_singleton in Ht | by apply elem_of_nil in Ht].
    + by apply (record_not_in _ _ Hks2) in Ht.
  - intros (x' & Hx' & Hkeep). rewrite Hx in Hx'. injection Hx' as <-.
    rewrite Hdata, Hkeep, !filter_app, !filter_label_none by done.
    rewrite filter_cons_True by apply label_of_record. done.
Qed.

(** ** The duplicate set *)

(** C7. A row whose label is in the duplicate set is dropped whatever its LR
    and whatever the contributor set: the loop runs as if the row were
    absent, and no row of the output carries a label of the duplicate set. *)
Theorem duplicate_set_drops :
  (forall r, r_sample r ∈ duplicatesSet ->
     (forall st, body st r = Return st) /\
     (forall st pre post, run st (pre ++ r :: post) = run st (pre ++ post))) /\
  (forall rows data, normalize rows = Return data ->
     forall t, t ∈ data -> label_of t ∉ duplicatesSet).
Proof.
  split.
  - intros r Hr. split.
    + intros st. apply loop_body_excluded. by left.
    + intros st pre post. apply loop_drop. left. by left.
  - intros rows data (st' & Hrun & <-)%normalizer_Return t Ht.
    destruct (loop_trace _ _ _ Hrun) as (ks & Hdata & _ & Hks & _).
    rewrite Hdata in Ht. simpl in Ht.
    apply list_elem_of_fmap in Ht as (k & -> & Hk).
    rewrite label_of_record. rewrite Forall_forall in Hks.
    apply label_not_duplicate. by apply Hks.
Qed.

(** ** Running the loop on its own output *)

Lemma set_sample_label k : label (set_sample (label k) k) = label k.
Proof. unfold label at 1. simpl. apply alias_idemp. Qed.

Lemma record_set_sample k : record (set_sample (label k) k) = record k.
Proof. unfold record_of. by rewrite set_sample_label. Qed.

Lemma filter_all {A} (P : A -> Prop) `{forall a, Decision (P a)} (l : list A) :
  Forall P l -> filter P l = l.
Proof.
  induction 1 as [| a l Ha _ IH]; [done |]. by rewrite filter_cons_True, IH.
Qed.

Lemma rerun ks : forall st2,
  Forall (fun k => ~ excluded k /\ kept k /\ (label k ∉ alreadyAppendedSet st2)) ks ->
  NoDup (label <$> ks) ->
  exists st2',
    run st2 (result_of <$> (record <$> ks)) = Return st2' /\
    lrData st2' = lrData st2 ++ filter (fun t => label_of t ≠ "40F") (record <$> ks).
Proof.
  induction ks as [| k ks IH]; intros st2 Hks Hnd.
  - exists st2. by rewrite app_nil_r.
  - apply Forall_cons in Hks as [(Hex & (x & Hx & Hkeep) & Hnew) Hks].
    rewrite fmap_cons in Hnd. apply NoDup_cons in Hnd as [Hk Hnd].
    rewrite !fmap_cons, result_of_record. simpl.
    destruct (decide (label k = "40F")) as [H40 | H40].
    + rewrite loop_body_excluded by (by right). simpl.
      destruct (IH st2 Hks Hnd) as (st2' & Hrun & Hdata). exists st2'.
      split; [done |]. rewrite filter_cons_False; [done |].
      rewrite label_of_record. by intros [].
    + assert (Hex' : ~ excluded (set_sample (label k) k)).
      { intros [Hd | Hd]; simpl in Hd; [by apply label_not_duplicate in Hd | done]. }
      rewrite loop_body_fresh by (by rewrite ?set_sample_label).
      rewrite set_sample_label, record_set_sample. simpl. rewrite Hx. simpl.
      rewrite Hkeep.
      destruct (IH (LoopState ({[label k]} ∪ alreadyAppendedSet st2)
                              (lrData st2 ++ [record k]))) as (st2' & Hrun & Hdata).
      * rewrite Forall_forall in Hks |- *. intros j Hj.
        destruct (Hks j Hj) as (? & ? & Hjnew). split_and!; [done | done |]. simpl.
        rewrite elem_of_union, elem_of_singleton. intros [Heq | ?]; [| done].
        apply Hk. rewrite <- Heq. apply list_elem_of_fmap. by exists j.
      * done.
      * exists st2'. split; [done |]. rewrite Hdata. simpl.
        rewrite filter_cons_True by (by rewrite label_of_record).
        by rewrite <- app_assoc.
Qed.

(** C2 (amended). Running the normalizer on the comparisons of its own
    output gives that output without its rows labelled 40F; the output is
    reproduced unchanged when no input row carries the alias Mock_6. *)
Theorem rerun_output rows data :
  normalize rows = Return data ->
  normalize (result_of <$> data) = Return (filter (fun t => label_of t ≠ "40F") data) /\
  ((forall r, r ∈ rows -> r_sample r ≠ "Mock_6") ->
   normalize (result_of <$> data) = Return data).
Proof.
  intros (st' & Hrun & <-)%normalizer_Return.
  destruct (loop_trace _ _ _ Hrun) as (ks & Hdata & _ & Hks & Hnd).
  simpl in Hdata. rewrite Hdata.
  destruct (rerun ks init) as (st'' & Hrun' & Hdata'); [| done |].
  { eapply Forall_impl; [exact Hks |]. simpl. intros k (_ & ? & ? & ?). done. }
  simpl in Hdata'.
  assert (Hre : normalize (result_of <$> (record <$> ks)) =
                Return (filter (fun t => label_of t ≠ "40F") (record <$> ks))).
  { apply normalizer_Return. by exists st''. }
  split; [done |].
  intros Hno. rewrite Hre. f_equal. apply filter_all.
  apply Forall_fmap. eapply Forall_impl; [exact Hks |]. simpl.
  intros k (Hk & Hex & _). rewrite label_of_record.
  unfold label, alias. rewrite decide_False by by apply Hno.
  intros H40. apply Hex. by right.
Qed.

(** ** The seen set is updated before the inclusion filter *)

Lemma seen_before_filter :
  (forall st r x,
     ~ excluded r -> label r ∉ alreadyAppendedSet st ->
     float_of py_float (r_lr r) = Return x ->
     PrimFloat.ltb LRCUTOFF x = false -> label r ∉ contrib_list ->
     body st r = Return (LoopState ({[label r]} ∪ alreadyAppendedSet st) (lrData st))) /\
  (forall pre r post data x,
     normalize (pre ++ r :: post) = Return data ->
     ~ excluded r -> ~ occurs (label r) pre ->
     float_of py_float (r_lr r) = Return x ->
     PrimFloat.ltb LRCUTOFF x = false -> label r ∉ contrib_list ->
     forall t, t ∈ data -> label_of t ≠ label r).
Proof.
  split.
  - intros st r x Hex Hnew Hx Hlr Hnc. rewrite loop_body_fresh by done.
    rewrite Hx. simpl. rewrite Hlr. by rewrite bool_decide_eq_false_2.
  - intros pre r post data x (st' & Hrun & <-)%normalizer_Return Hex Hfirst Hx Hlr Hnc t Ht.
    destruct (loop_first_occurrence _ _ _ _ Hrun Hex Hfirst)
      as (x' & ks1 & ks2 & Hx' & Hdata & Hks1 & Hks2).
    rewrite Hx in Hx'. injection Hx' as <-.
    rewrite Hlr, bool_decide_eq_false_2 in Hdata by done. simpl in Hdata.
    rewrite Hdata, elem_of_app in Ht.
    destruct Ht as [Ht | Ht];
      [by apply (record_not_in _ _ Hks1) in Ht | by apply (record_not_in _ _ Hks2) in Ht].
Qed.

End Rows.

(** ** Extraction of a document *)

Ltac bind_inv H :=
  rewrite bind_out in H;
  match type of H with
  | match ?o with Return _ => _ | Raise _ => _ end = _ =>
      let E := fresh "E" in destruct o eqn:E; [| discriminate H]
  end.

Lemma contributorsList_slots mix_num contributors l :
  out (contributorsList mix_num contributors) = Return l -> length l = 5.
Proof.
  unfold contributorsList. destruct (mixDictionary !! _) as [l' |] eqn:Hl.
  - intros [= <-]. by apply mixDictionary_slots in Hl.
  - by intros [= <-].
Qed.

Lemma header_shape file tree sd cl sid :
  out (header file tree) = Return (sd, cl, sid) ->
  length cl = 5 /\ length sd = 12.
Proof.
  unfold header. intros H. do 10 bind_inv H.
  simpl in H. injection H as <- <- <-.
  assert (Hcl : length a8 = 5).
  { destruct (contains "SS" a4).
    - do 2 bind_inv E8. simpl in E8. by injection E8 as <-.
    - by apply contributorsList_slots in E8. }
  split; [done | cbv beta]. simpl. by rewrite length_fmap, Hcl.
Qed.

Lemma split_no_sep c s : count c s = 0 -> split c s = [s].
Proof.
  induction s as [| a s IH]; simpl; [done | cbv beta].
  destruct (Ascii.eqb a c); [done | cbv beta]. intros H. by rewrite IH.
Qed.

Lemma bind_then {A B} (m : M A) (k : A -> M B) a s1 s2 e :
  m = Run s1 (Return a) -> k a = Run s2 (Raise e) ->
  m ≫= k = Run (s1 ++ s2) (Raise e).
Proof. intros -> Hk. unfold mbind, M_bind, bind. simpl. by rewrite Hk. Qed.

Lemma bind_here {A B} (m : M A) (k : A -> M B) s e :
  m = Run s (Raise e) -> m ≫= k = Run s (Raise e).
Proof. by intros ->. Qed.

Lemma header_no_underscore file tree e s :
  find_desc "sampleId" tree = Some e -> text e = Some s -> count "_" s = 0 ->
  exists err,
    header file tree = Run [("Current file: " ++ file)%string] (Raise err) /\
    (find_child "databaseSearchResults" tree ≠ None ->
     find_desc "caseNumber" tree ≠ None -> err = IndexError).
Proof.
  intros Hsid Ht Hs. unfold header.
  destruct (find_child "databaseSearchResults" tree) as [marker |].
  2: { eexists. split; [| by intros []].
       eapply (bind_then _ _ tt [_] []); [done | cbv beta]. by apply bind_here. }
  destruct (find_desc "caseNumber" tree) as [cn |].
  2: { eexists. split; [| by intros _ []].
       eapply (bind_then _ _ tt [_] []); [done | cbv beta].
       eapply (bind_then _ _ tt [] []); [done | cbv beta]. by apply bind_here. }
  exists IndexError. split; [| done].
  eapply (bind_then _ _ tt [_] []); [done | cbv beta].
  eapply (bind_then _ _ tt [] []); [done | cbv beta].
  eapply (bind_then _ _ _ [] []); [done | cbv beta].
  rewrite Hsid.
  eapply (bind_then _ _ _ [] []); [done | cbv beta]. rewrite Ht.
  eapply (bind_then _ _ _ [] []); [done | cbv beta].
  rewrite (split_no_sep _ _ Hs).
  eapply (bind_then _ _ _ [] []); [done | cbv beta]. by apply bind_here.
Qed.

Section Documents.

Variable py_float : string -> option float.
Variable table : list (string * float).

Abbreviation parse := (parseResultsXMLFile py_float table).

(** What a successful extraction went through. *)
Lemma parse_Return file tree recs :
  out (parse file tree) = Return recs ->
  exists sd cl sid low rows,
    out (header file tree) = Return (sd, cl, sid) /\
    lookup_lowest table sid = Return low /\
    mapM read_result (findall_desc "stdResult" tree) = Return rows /\
    normalizer py_float sd cl low rows = Return recs.
Proof.
  unfold parseResultsXMLFile. intros H.
  bind_inv H. destruct a as [[sd cl] sid]. bind_inv H.
  rename a into low. simpl in E0.
  exists sd, cl, sid, low.
  destruct (find_desc "stdResult" tree) as [e |] eqn:Hfind.
  - do 2 bind_inv H. simpl in E1, E2, H. injection H as <-.
    exists a. split_and!; [done | done | done |].
    unfold normalizer. by rewrite E2.
  - exists []. simpl in H. injection H as <-. split_and!; [done | done | | done].
    unfold find_desc in Hfind. by destruct (findall_desc "stdResult" tree).
Qed.

Lemma length_record sd cl low k : length (record_of sd cl low k) = length sd + 5.
Proof. unfold record_of, temp_of. rewrite !length_app. simpl. lia. Qed.

(** C4 (what the code does). Every exported row has exactly the seventeen
    cells of [columns], and no column holds a convergence diagnostic. *)
Theorem record_schema file tree recs :
  out (parse file tree) = Return recs ->
  Forall (fun t => length t = length columns) recs /\
  length columns = 17 /\ "Gelman Rubin" ∉ columns.
Proof.
  intros (sd & cl & sid & low & rows & Hh & _ & _ & Hn)%parse_Return.
  apply normalizer_Return in Hn as (st' & Hrun & <-).
  destruct (loop_trace _ _ _ _ _ _ _ Hrun) as (ks & -> & _).
  apply header_shape in Hh as [_ Hsd].
  split_and!; [| done |].
  - simpl. apply Forall_fmap, Forall_forall. intros k _. simpl.
    by rewrite length_record, Hsd.
  - apply (bool_decide_eq_false_1 ("Gelman Rubin" ∈ columns)). vm_compute. reflexivity.
Qed.

(** C10. When the sample id has no underscore, extraction raises after
    printing nothing but the file name, so no row is returned; in a
    database-search document with a case number the error is the IndexError
    of [split('_')[1]]. *)
Theorem no_underscore_fails file tree e s :
  find_desc "sampleId" tree = Some e -> text e = Some s -> count "_" s = 0 ->
  exists err,
    parse file tree = Run [("Current file: " ++ file)%string] (Raise err) /\
    (find_child "databaseSearchResults" tree ≠ None ->
     find_desc "caseNumber" tree ≠ None -> err = IndexError).
Proof.
  intros Hsid Ht Hs.
  destruct (header_no_underscore file tree e s Hsid Ht Hs) as (err & Hh & Herr).
  exists err. split; [| done]. unfold parseResultsXMLFile. by apply bind_here.
Qed.

Lemma lookup_lowest_absent sid :
  sid ∉ table.*1 -> lookup_lowest table sid = Raise IndexError.
Proof.
  intros Hsid. unfold lookup_lowest.
  assert (Hnil : filter (fun r => r.1 = sid) table = []).
  { induction table as [| r t IH]; [done |].
    rewrite fmap_cons, not_elem_of_cons in Hsid. destruct Hsid as [Hr Ht].
    rewrite filter_cons_False by done. by apply IH. }
  by rewrite Hnil.
Qed.

Lemma stdout_bind {A B} (m : M A) (k : A -> M B) a :
  out m = Return a -> stdout (m ≫= k) = stdout m ++ stdout (k a).
Proof. intros H. by rewrite (bind_return _ _ a). Qed.

Lemma main_loop_cons x tr rest acc :
  main_loop py_float table ((x, tr) :: rest) acc =
    (print ("Current file: " ++ x)%string;;
     temp_array ← parse x tr;
     main_loop py_float table rest (acc ++ temp_array)).
Proof. done. Qed.

Lemma main_loop_abort file tree post s e pre : forall acc arr,
  out (main_loop py_float table pre acc) = Return arr ->
  parse file tree = Run s (Raise e) ->
  main_loop py_float table (pre ++ (file, tree) :: post) acc =
    Run (stdout (main_loop py_float table pre acc) ++
         ("Current file: " ++ file)%string :: s) (Raise e).
Proof.
  induction pre as [| [x tr] pre IH]; intros acc arr Hpre Hparse.
  - change (stdout (main_loop py_float table [] acc)) with (@nil string).
    rewrite !app_nil_l, main_loop_cons.
    apply (bind_then _ _ tt [_] s); [done | cbv beta]. by apply bind_here.
  - rewrite <- app_comm_cons, !main_loop_cons. rewrite main_loop_cons in Hpre.
    do 2 bind_inv Hpre.
    rewrite (stdout_bind _ _ a) by done. rewrite (stdout_bind _ _ a0) by done.
    rewrite <- !app_assoc.
    eapply (bind_then _ _ tt [_] _); [done | cbv beta].
    eapply (bind_then _ _ a0 _ _);
      [by destruct (parse x tr) as [? []]; simplify_eq/= | cbv beta].
    by eapply IH.
Qed.

(** C3 (amended). When the sample id of a document is not in the
    template-amount table, its extraction raises an IndexError after the
    header and returns no row, and the run stops there: [main] raises the
    same error and nothing of the later documents is read or printed. *)
Theorem lookup_failure_aborts_run pre file tree post sd cl sid arr :
  out (main py_float table pre) = Return arr ->
  out (header file tree) = Return (sd, cl, sid) ->
  sid ∉ table.*1 ->
  parse file tree = Run (stdout (header file tree)) (Raise IndexError) /\
  main py_float table (pre ++ (file, tree) :: post) =
    Run (stdout (main py_float table pre) ++
         ("Current file: " ++ file)%string :: stdout (header file tree))
        (Raise IndexError).
Proof.
  intros Hpre Hh Hsid.
  assert (Hparse : parse file tree = Run (stdout (header file tree)) (Raise IndexError)).
  { unfold parseResultsXMLFile.
    rewrite <- (app_nil_r (stdout (header file tree))).
    eapply (bind_then _ _ (sd, cl, sid) _ []);
      [by destruct (header file tree) as [? []]; simplify_eq/= | cbv beta iota].
    apply bind_here. by rewrite lookup_lowest_absent. }
  split; [done |]. unfold main. by eapply main_loop_abort.
Qed.

End Documents.

(** ** The seen set and the inclusion filter, on every input and on one *)

(** C9. A first occurrence that the inclusion filter drops is still added
    to the seen set, so no row of its label reaches the output; there is an
    input in which such a label has a later row above the cutoff and the
    output is empty. *)
Theorem seen_set_updated_before_filter :
  (forall py_float sampleData contrib_list lowest_DNA st r x,
     ~ excluded r -> label r ∉ alreadyAppendedSet st ->
     float_of py_float (r_lr r) = Return x ->
     PrimFloat.ltb LRCUTOFF x = false -> label r ∉ contrib_list ->
     loop_body py_float sampleData contrib_list lowest_DNA st r =
       Return (LoopState ({[label r]} ∪ alreadyAppendedSet st) (lrData st))) /\
  (forall py_float sampleData contrib_list lowest_DNA pre r post data x,
     normalizer py_float sampleData contrib_list lowest_DNA (pre ++ r :: post)
       = Return data ->
     ~ excluded r -> ~ occurs (label r) pre ->
     float_of py_float (r_lr r) = Return x ->
     PrimFloat.ltb LRCUTOFF x = false -> label r ∉ contrib_list ->
     forall t, t ∈ data -> label_of t ≠ label r) /\
  (exists later x,
     float_of float_literals (r_lr later) = Return x /\
     PrimFloat.ltb LRCUTOFF x = true /\ ~ excluded later /\
     ex_normalizer [ex_row "Y" "-5"; later] = Return []).
Proof.
  split_and!.
  - intros py_float sd cl low. apply seen_before_filter.
  - intros py_float sd cl low. apply seen_before_filter.
  - exists (ex_row "Y" "10"), 10%float. split_and!; [done | done | | done].
    apply (bool_decide_unpack _). vm_compute. exact I.
Qed.

(** ** The examples of the specification *)

Example inclusion_examples :
  ex_normalizer [ex_row "X" "0.5"; ex_row "Y" "-5"; ex_row "9F" "-5"]
  = Return [ex_record "X" "0.5"; ex_record "9F" "-5"].
Proof. vm_compute. reflexivity. Qed.

Example first_occurrence_example :
  ex_normalizer [ex_row "X" "2.0"; ex_row "X" "5.0"] = Return [ex_record "X" "2.0"].
Proof. vm_compute. reflexivity. Qed.

Example duplicate_example :
  ex_normalizer [ex_row "9F" "10"; ex_row "Mock_4" "10"] = Return [ex_record "9F" "10"].
Proof. vm_compute. reflexivity. Qed.

Example extraction_example :
  parseResultsXMLFile float_literals ex_table "a.xml" ex_doc
  = Run ["Current file: a.xml"; "Sample ID: M1_9F-21F-22M"]
        (Return [ex_record "9F" "-5"; ex_record "X" "2.0"]).
Proof. vm_compute. reflexivity. Qed.

(** ** Where the specification and the program part *)

(** C2 fails as stated: the alias Mock_6 is exported as 40F, and a row
    labelled 40F is dropped when the output is read again. *)
Lemma normalizer_not_idempotent :
  ~ (forall rows data,
       ex_normalizer rows = Return data ->
       ex_normalizer (result_of <$> data) = Return data).
Proof.
  intros H. specialize (H [ex_row "Mock_6" "10"] _ eq_refl).
  vm_compute in H. discriminate H.
Qed.

(** C3 fails as stated: after the document whose sample is not in the
    table, the run has stopped; the next document, which alone gives two
    rows, is never read. *)
Lemma later_documents_not_processed :
  main float_literals ex_table [("b.xml", ex_doc_absent); ("a.xml", ex_doc)]
  = Run ["Current file: b.xml"; "Current file: b.xml"; "Sample ID: M2_4M-8F"]
        (Raise IndexError) /\
  out (parseResultsXMLFile float_literals ex_table "a.xml" ex_doc)
  = Return [ex_record "9F" "-5"; ex_record "X" "2.0"].
Proof. split; vm_compute; reflexivity. Qed.

(** C6 fails as stated: a row labelled 40F is dropped by the reserved-label
    exclusion and leaves no mark in the seen set, so of the rows 40F (LR
    2.0) and Mock_6 (LR 5.0), equal after the rewrite, it is the later one
    that is exported, and taking it away changes the output. *)
Lemma later_alias_row_survives :
  label (ex_row "Mock_6" "5.0") = label (ex_row "40F" "2.0") /\
  ex_normalizer [ex_row "40F" "2.0"; ex_row "Mock_6" "5.0"]
  = Return [ex_record "40F" "5.0"] /\
  ex_normalizer [ex_row "40F" "2.0"] = Return [] /\
  ~ (forall r1 r2 data,
       label r2 = label r1 ->
       ex_normalizer [r1; r2] = Return data ->
       ex_normalizer [r1] = Return data).
Proof.
  split_and!; [reflexivity | vm_compute; reflexivity | vm_compute; reflexivity |].
  intros H.
  specialize (H (ex_row "40F" "2.0") (ex_row "Mock_6" "5.0") _ eq_refl eq_refl).
  vm_compute in H. discriminate H.
Qed.

(** ** The theorems at concrete inputs *)

Ltac decided := apply (bool_decide_unpack _); vm_compute; exact I.

Lemma inclusion_filter_witness :
  (ex_record "9F" "-5" ∈ [ex_record "X" "0.5"; ex_record "9F" "-5"] <->
     PrimFloat.ltb LRCUTOFF (-5)%float = true \/ label (ex_row "9F" "-5") ∈ ex_contrib) /\
  (label (ex_row "9F" "-5") ∈ ex_contrib ->
   ex_record "9F" "-5" ∈ [ex_record "X" "0.5"; ex_record "9F" "-5"]).
Proof.
  apply (inclusion_filter float_literals ex_sampleData ex_contrib ex_lowest
           [ex_row "X" "0.5"] (ex_row "9F" "-5") [ex_row "Y" "-5"]).
  - vm_compute. reflexivity.
  - decided.
  - rewrite occurs_cons, occurs_nil. intros [[_ H] | []]. discriminate H.
  - reflexivity.
Defined.

Lemma first_occurrence_wins_witness :
  ex_normalizer ([] ++ ex_row "X" "2.0" :: [] ++ []) = Return [ex_record "X" "2.0"] /\
  (forall t, t ∈ [ex_record "X" "2.0"] -> label_of t = label (ex_row "X" "2.0") ->
             t = ex_record "X" "2.0") /\
  (retained float_literals ex_contrib (ex_row "X" "2.0") ->
   filter (fun t => label_of t = label (ex_row "X" "2.0")) [ex_record "X" "2.0"]
   = [ex_record "X" "2.0"]).
Proof.
  apply (first_occurrence_wins float_literals ex_sampleData ex_contrib ex_lowest
           [] (ex_row "X" "2.0") [] (ex_row "X" "5.0") []).
  - vm_compute. reflexivity.
  - decided.
  - by intros ?%occurs_nil.
  - reflexivity.
Defined.

Lemma rerun_output_witness :
  ex_normalizer (result_of <$> [ex_record "40F" "10"; ex_record "X" "2.0"])
  = Return (filter (fun t => label_of t ≠ "40F") [ex_record "40F" "10"; ex_record "X" "2.0"]) /\
  ((forall r, r ∈ [ex_row "Mock_6" "10"; ex_row "X" "2.0"] -> r_sample r ≠ "Mock_6") ->
   ex_normalizer (result_of <$> [ex_record "40F" "10"; ex_record "X" "2.0"])
   = Return [ex_record "40F" "10"; ex_record "X" "2.0"]).
Proof.
  apply (rerun_output float_literals ex_sampleData ex_contrib ex_lowest
           [ex_row "Mock_6" "10"; ex_row "X" "2.0"]).
  vm_compute. reflexivity.
Defined.

Lemma lookup_failure_aborts_run_witness :
  parseResultsXMLFile float_literals ex_table "b.xml" ex_doc_absent
  = Run (stdout (header "b.xml" ex_doc_absent)) (Raise IndexError) /\
  main float_literals ex_table ([("a.xml", ex_doc)] ++ ("b.xml", ex_doc_absent) :: [("c.xml", ex_doc)])
  = Run (stdout (main float_literals ex_table [("a.xml", ex_doc)]) ++
         "Current file: b.xml" :: stdout (header "b.xml" ex_doc_absent))
        (Raise IndexError).
Proof.
  apply (lookup_failure_aborts_run float_literals ex_table [("a.xml", ex_doc)]
           "b.xml" ex_doc_absent [("c.xml", ex_doc)]
           ([PStr "DB Search"; PStr "C-1"; PStr "M2_4M-8F"; PStr ""; PStr "42";
             PStr "3"; PStr "2"] ++ (PStr <$> ["1M"; "22F"; ""; ""; ""]))
           ["1M"; "22F"; ""; ""; ""] "M2_4M-8F"
           [ex_record "9F" "-5"; ex_record "X" "2.0"]).
  - vm_compute. reflexivity.
  - vm_compute. reflexivity.
  - decided.
Defined.

Lemma record_schema_witness :
  Forall (fun t => length t = length columns) [ex_record "9F" "-5"; ex_record "X" "2.0"] /\
  length columns = 17 /\ "Gelman Rubin" ∉ columns.
Proof.
  apply (record_schema float_literals ex_table "a.xml" ex_doc).
  vm_compute. reflexivity.
Defined.

Lemma no_underscore_fails_witness :
  exists err,
    parseResultsXMLFile float_literals ex_table "a.xml" (document "M1" [])
    = Run ["Current file: a.xml"] (Raise err) /\
    (find_child "databaseSearchResults" (document "M1" []) ≠ None ->
     find_desc "caseNumber" (document "M1" []) ≠ None -> err = IndexError).
Proof.
  apply (no_underscore_fails float_literals ex_table "a.xml" (document "M1" [])
           (leaf "sampleId" "M1") "M1"); reflexivity.
Defined.

(** * Further properties of the row loop *)

Section MoreRows.

Variable py_float : string -> option float.
Variables (sampleData : list pyval) (contrib_list : list string) (lowest_DNA : float).

Abbreviation body' := (loop_body py_float sampleData contrib_list lowest_DNA).
Abbreviation run' := (loop py_float sampleData contrib_list lowest_DNA).
Abbreviation record' := (record_of sampleData contrib_list lowest_DNA).
Abbreviation normalize' := (normalizer py_float sampleData contrib_list lowest_DNA).

(** What the normalizer returns, in one statement. *)
Lemma normalizer_trace rows data :
  normalize' rows = Return data ->
  exists ks,
    data = record' <$> ks /\
    Forall (fun k => k ∈ rows /\ ~ excluded k /\
                     retained py_float contrib_list k) ks /\
    NoDup (label <$> ks).
Proof.
  intros (st' & Hrun & <-)%normalizer_Return.
  destruct (loop_trace _ _ _ _ _ _ _ Hrun) as (ks & Hdata & _ & Hks & Hnd).
  exists ks. split_and!; [done | | done].
  eapply Forall_impl; [exact Hks |]. simpl. tauto.
Qed.

Lemma label_of_records (ks : list result_row) :
  label_of <$> (record' <$> ks) = label <$> ks.
Proof.
  rewrite <- list_fmap_compose. apply list_fmap_ext. intros _ k _. simpl.
  apply label_of_record.
Qed.

(** X7. The compared labels of the rows a document exports are pairwise
    distinct. *)
Theorem output_labels_unique rows data :
  normalize' rows = Return data -> NoDup (label_of <$> data).
Proof.
  intros (ks & -> & _ & Hnd)%normalizer_trace. by rewrite label_of_records.
Qed.

(** X8. Every exported row passed the inclusion test: its LR text converts
    to a number, and that number is above the cutoff or the label is in the
    contributor set. *)
Theorem exported_rows_pass_filter rows data t :
  normalize' rows = Return data -> t ∈ data ->
  exists x, float_of py_float (r_lr (result_of t)) = Return x /\
            (PrimFloat.ltb LRCUTOFF x = true \/ label_of t ∈ contrib_list).
Proof.
  intros (ks & -> & Hks & _)%normalizer_trace (k & -> & Hk)%list_elem_of_fmap.
  rewrite Forall_forall in Hks. destruct (Hks k Hk) as (_ & _ & x & Hx & Hkeep).
  exists x. rewrite result_of_record, label_of_record. split; [done |].
  apply orb_true_iff in Hkeep as [? | ?%bool_decide_eq_true]; tauto.
Qed.

(** X9. The alias Mock_6 never reaches the output, and an exported row
    labelled 40F always comes from an input row labelled Mock_6, with the
    case number and LR text of that row. *)
Theorem reserved_label_from_alias rows data t :
  normalize' rows = Return data -> t ∈ data ->
  label_of t ≠ "Mock_6" /\
  (label_of t = "40F" ->
   exists r, r ∈ rows /\ r_sample r = "Mock_6" /\
             r_caseNumber r = r_caseNumber (result_of t) /\
             r_lr r = r_lr (result_of t)).
Proof.
  intros (ks & -> & Hks & _)%normalizer_trace (k & -> & Hk)%list_elem_of_fmap.
  rewrite Forall_forall in Hks. destruct (Hks k Hk) as (Hin & Hex & _).
  rewrite label_of_record, result_of_record. split; [apply alias_not_Mock_6 |].
  intros H40. exists k. split_and!; [done | | done | done].
  unfold label, alias in H40. case_decide; [done |].
  exfalso. apply Hex. by right.
Qed.

Lemma loop_sublist rs : forall st st',
  run' st rs = Return st' ->
  exists ks, lrData st' = lrData st ++ (record' <$> ks) /\ sublist ks rs.
Proof.
  induction rs as [| r rs IH]; intros st st' Hrun.
  - injection Hrun as <-. exists []. by rewrite app_nil_r.
  - simpl in Hrun.
    destruct (decide (excluded r)) as [Hex | Hex].
    { rewrite loop_body_excluded in Hrun by done.
      destruct (IH _ _ Hrun) as (ks & Hdata & Hsub). exists ks.
      split; [done | by apply sublist_cons]. }
    destruct (decide (label r ∈ alreadyAppendedSet st)) as [Hin | Hnew].
    { rewrite loop_body_seen in Hrun by done.
      destruct (IH _ _ Hrun) as (ks & Hdata & Hsub). exists ks.
      split; [done | by apply sublist_cons]. }
    rewrite loop_body_fresh in Hrun by done.
    destruct (float_of py_float (r_lr r)) as [x | e]; [| done]. simpl in Hrun.
    destruct (IH _ _ Hrun) as (ks & Hdata & Hsub). simpl in Hdata.
    destruct (PrimFloat.ltb LRCUTOFF x || _).
    + exists (r :: ks). split; [| by apply sublist_skip].
      by rewrite Hdata, fmap_cons, <- app_assoc.
    + exists ks. split; [done | by apply sublist_cons].
Qed.

(** X10. The exported rows keep the order of the input: their comparisons
    form a subsequence of the input rows after the alias rewrite. *)
Theorem output_order_preserved rows data :
  normalize' rows = Return data ->
  sublist (result_of <$> data) (rewrite_alias <$> rows) /\
  length data <= length rows.
Proof.
  intros (st' & Hrun & <-)%normalizer_Return.
  destruct (loop_sublist _ _ _ Hrun) as (ks & -> & Hsub). simpl.
  assert (Hres : result_of <$> (record' <$> ks) = rewrite_alias <$> ks).
  { rewrite <- list_fmap_compose. apply list_fmap_ext. intros _ k _. simpl.
    apply result_of_record. }
  split.
  - rewrite Hres. by apply fmap_sublist.
  - rewrite length_fmap. by apply sublist_length.
Qed.

Lemma float_of_errors v e :
  float_of py_float v = Raise e -> e = ValueError \/ e = TypeError.
Proof.
  unfold float_of. destruct v as [s |]; [| intros [= <-]; by right].
  destruct (py_float s); [done | intros [= <-]; by left].
Qed.

(** X12. A row that reaches the inclusion test with an LR text that is
    missing or that [float] rejects makes the whole loop raise, TypeError
    or ValueError, whatever its label: the rows before it are lost and the
    rows after it are not read. *)
Theorem malformed_lr_raises pre r post d e :
  normalize' pre = Return d ->
  ~ excluded r -> ~ occurs (label r) pre ->
  float_of py_float (r_lr r) = Raise e ->
  normalize' (pre ++ r :: post) = Raise e /\ (e = ValueError \/ e = TypeError).
Proof.
  intros (st1 & Hpre & _)%normalizer_Return Hex Hfirst He.
  split; [| by eapply float_of_errors].
  unfold normalizer. rewrite loop_app, Hpre. simpl.
  destruct (loop_trace _ _ _ _ _ _ _ Hpre) as (_ & _ & Hseen & _).
  rewrite loop_body_fresh; [by rewrite He | done |].
  rewrite Hseen. simpl. intros [H | H]; [by apply not_elem_of_empty in H | done].
Qed.

Lemma loop_Raise rs : forall st e,
  run' st rs = Raise e ->
  exists r, r ∈ rs /\ ~ excluded r /\ float_of py_float (r_lr r) = Raise e.
Proof.
  induction rs as [| r rs IH]; intros st e Hrun; [done |].
  simpl in Hrun.
  assert (Hrest : forall st1, run' st1 rs = Raise e ->
            exists k, k ∈ r :: rs /\ ~ excluded k /\ float_of py_float (r_lr k) = Raise e).
  { intros st1 (k & ? & ? & ?)%IH. exists k. split_and!; [by right | done | done]. }
  destruct (decide (excluded r)) as [Hex | Hex].
  { rewrite loop_body_excluded in Hrun by done. by eapply Hrest. }
  destruct (decide (label r ∈ alreadyAppendedSet st)) as [Hin | Hnew].
  { rewrite loop_body_seen in Hrun by done. by eapply Hrest. }
  rewrite loop_body_fresh in Hrun by done.
  destruct (float_of py_float (r_lr r)) as [x | e'] eqn:Hx.
  - simpl in Hrun. by eapply Hrest.
  - injection Hrun as ->. exists r. split_and!; [left | done | done].
Qed.

(** X13. The loop can fail in one way only: a row outside the two
    exclusions has an LR text that is missing (TypeError) or that [float]
    rejects (ValueError). *)
Theorem normalizer_errors rows e :
  normalize' rows = Raise e ->
  (e = ValueError \/ e = TypeError) /\
  exists r, r ∈ rows /\ ~ excluded r /\ float_of py_float (r_lr r) = Raise e.
Proof.
  unfold normalizer. destruct (run' init rows) as [st | e'] eqn:Hrun; [done |].
  intros [= ->]. destruct (loop_Raise _ _ _ Hrun) as (r & Hr & Hex & He).
  split; [by eapply float_of_errors | by exists r].
Qed.

Lemma loop_filter_excluded rs : forall st,
  run' st rs = run' st (filter (fun r => ~ excluded r) rs).
Proof.
  induction rs as [| r rs IH]; intros st; [done |].
  destruct (decide (excluded r)) as [Hex | Hex].
  - rewrite filter_cons_False by tauto. simpl.
    rewrite loop_body_excluded by done. apply IH.
  - rewrite filter_cons_True by done. simpl.
    destruct (body' st r); [apply IH | done].
Qed.

(** X14. Rows of the duplicate set and rows labelled 40F can be taken out
    of the input beforehand: the result, rows or error, is the same. *)
Theorem excluded_rows_irrelevant rows :
  normalize' rows = normalize' (filter (fun r => ~ excluded r) rows).
Proof. unfold normalizer. by rewrite <- loop_filter_excluded. Qed.

(** X15. Reading more rows only appends: the output for a prefix of the
    input is a prefix of the output. *)
Theorem normalizer_prefix rows1 rows2 data :
  normalizer py_float sampleData contrib_list lowest_DNA (rows1 ++ rows2) = Return data ->
  exists d1 d2,
    normalizer py_float sampleData contrib_list lowest_DNA rows1 = Return d1 /\
    data = d1 ++ d2.
Proof.
  intros (st' & Hrun & <-)%normalizer_Return. rewrite loop_app in Hrun.
  destruct (run' init rows1) as [st1 | e] eqn:H1; [| done]. simpl in Hrun.
  destruct (loop_trace _ _ _ _ _ _ _ Hrun) as (ks & Hdata & _).
  exists (lrData st1), (record' <$> ks). split; [| done].
  apply normalizer_Return. by exists st1.
Qed.

Lemma loop_contributor rs : forall st st' l,
  run' st rs = Return st' ->
  occurs l rs -> l ∉ alreadyAppendedSet st -> l ∈ contrib_list ->
  exists k, record' k ∈ lrData st' /\ label k = l.
Proof.
  induction rs as [| r rs IH]; intros st st' l Hrun Hocc Hnew Hl.
  - by apply occurs_nil in Hocc.
  - simpl in Hrun. apply occurs_cons in Hocc.
    destruct (decide (excluded r)) as [Hex | Hex].
    { rewrite loop_body_excluded in Hrun by done.
      destruct Hocc as [[? _] | Hocc]; [done | by eapply IH]. }
    destruct (decide (label r ∈ alreadyAppendedSet st)) as [Hin | Hnr].
    { rewrite loop_body_seen in Hrun by done.
      destruct Hocc as [[_ <-] | Hocc]; [done | by eapply IH]. }
    rewrite loop_body_fresh in Hrun by done.
    destruct (float_of py_float (r_lr r)) as [x | e]; [| done]. simpl in Hrun.
    destruct (decide (label r = l)) as [<- | Hne].
    + rewrite (bool_decide_eq_true_2 _ Hl), orb_true_r in Hrun.
      destruct (loop_trace _ _ _ _ _ _ _ Hrun) as (ks & Hdata & _).
      exists r. split; [| done]. rewrite Hdata. simpl.
      rewrite !elem_of_app, list_elem_of_singleton. tauto.
    + destruct Hocc as [[_ ?] | Hocc]; [done |].
      eapply IH; [exact Hrun | done | | done]. simpl.
      rewrite elem_of_union, elem_of_singleton. by intros [? | ?].
Qed.

(** X11. The output carries only labels of rows of the input that are
    outside the two exclusions, and it carries every such label that is in
    the contributor set, classified True, whatever the LR values. *)
Theorem contributors_complete rows data :
  normalize' rows = Return data ->
  (forall t, t ∈ data -> occurs (label_of t) rows) /\
  (forall l, l ∈ contrib_list -> occurs l rows ->
     exists t, t ∈ data /\ label_of t = l /\
               t !! (length sampleData) = Some (PStr "True")).
Proof.
  intros Hnorm. split.
  - apply normalizer_trace in Hnorm as (ks & -> & Hks & _).
    intros t (k & -> & Hk)%list_elem_of_fmap.
    rewrite Forall_forall in Hks. destruct (Hks k Hk) as (Hin & Hex & _).
    rewrite label_of_record. by exists k.
  - apply normalizer_Return in Hnorm as (st' & Hrun & <-).
    intros l Hl Hocc.
    destruct (loop_contributor _ _ _ l Hrun Hocc) as (k & Hk & <-);
      [apply not_elem_of_empty | done |].
    exists (record' k). split_and!; [done | apply label_of_record |].
    unfold record_of, temp_of, classify. rewrite decide_True by done.
    by rewrite lookup_app_r, Nat.sub_diag.
Qed.

End MoreRows.

(** * Further properties of the extraction of a document *)

Lemma bind_ok {A B} (m : M A) (k : A -> M B) a s1 r :
  m = Run s1 (Return a) -> k a = r ->
  m ≫= k = Run (s1 ++ stdout r) (out r).
Proof. intros -> <-. done. Qed.

Ltac bind_as H x E :=
  rewrite bind_out in H;
  match type of H with
  | match ?o with Return _ => _ | Raise _ => _ end = _ =>
      destruct o as [x |] eqn:E; [| discriminate H]
  end.

Lemma index_head {A} (l : list A) :
  index l 0 = match head l with Some a => Return a | None => Raise IndexError end.
Proof. by destruct l. Qed.

(** X3. For a single-source sample (the first underscore token of the id
    contains SS) the contributor set is the text before the first space of
    the last underscore token, followed by four empty slots; the mixture
    table is not consulted and nothing but the file name and the sample id
    is printed. *)
Theorem single_source_contributor file tree sd cl sid mix :
  out (header file tree) = Return (sd, cl, sid) ->
  head (split "_" sid) = Some mix -> contains "SS" mix = true ->
  exists final tok,
    last (split "_" sid) = Some final /\ head (split " " final) = Some tok /\
    cl = [tok; ""; ""; ""; ""] /\
    stdout (header file tree) =
      [("Current file: " ++ file)%string; ("Sample ID: " ++ sid)%string].
Proof.
  unfold header. intros H Hmix Hss.
  rewrite !(stdout_bind _ _ tt) by done.
  bind_as H u1 U1. bind_as H u2 U2. rewrite (stdout_bind _ _ u2) by done.
  bind_as H caseNumber Hcn. rewrite (stdout_bind _ _ caseNumber) by done.
  bind_as H sampleId Hsi. rewrite (stdout_bind _ _ sampleId) by done.
  bind_as H sampleID HsI. rewrite (stdout_bind _ _ sampleID) by done.
  bind_as H mixNumber Hmn. rewrite (stdout_bind _ _ mixNumber) by done.
  bind_as H suf Hsu. rewrite (stdout_bind _ _ suf) by done.
  bind_as H seed Hse. rewrite (stdout_bind _ _ seed) by done.
  bind_as H contributors Hco. rewrite (stdout_bind _ _ contributors) by done.
  bind_as H contrib Hcl. rewrite (stdout_bind _ _ contrib) by done.
  simpl in H. injection H as <- <- <-.
  cbn [lift out] in Hmn. rewrite index_head, Hmix in Hmn. injection Hmn as <-.
  rewrite Hss in Hcl |- *.
  bind_as Hcl final Hfi. rewrite (stdout_bind _ _ final) by done.
  bind_as Hcl tok Htok. rewrite (stdout_bind _ _ tok) by done.
  simpl in Hcl. injection Hcl as <-.
  exists final, tok. split_and!; [| | done |].
  - cbn [lift out] in Hfi. unfold index_last in Hfi.
    by destruct (last (split "_" sampleID)); simplify_eq.
  - cbn [lift out] in Htok. rewrite index_head in Htok.
    by destruct (head (split " " final)); simplify_eq.
  - by destruct (find_child "databaseSearchResults" tree).
Qed.

(** X2. A header that is read names what the document had to contain: the
    elements caseNumber, sampleId (with text holding an underscore), seed
    and contributors; caseNotes alone may be absent, and then its cell is
    the empty string.  The first seven cells are the run type, these texts
    and the true contributor count, the last five the contributor set. *)
Theorem header_requires file tree sd cl sid :
  out (header file tree) = Return (sd, cl, sid) ->
  exists cn si se co suf,
    is_Some (find_child "databaseSearchResults" tree) /\
    find_desc "caseNumber" tree = Some cn /\
    find_desc "sampleId" tree = Some si /\ text si = Some sid /\
    find_desc "seed" tree = Some se /\
    find_desc "contributors" tree = Some co /\
    split "_" sid !! 1 = Some suf /\
    sd = [PStr "DB Search"; of_text (text cn); PStr sid;
          match find_desc "caseNotes" tree with
          | Some e => of_text (text e)
          | None => PStr ""
          end;
          of_text (text se); of_text (text co); PStr (str (count "-" suf + 1))]
         ++ (PStr <$> cl).
Proof.
  unfold header. intros H.
  bind_as H u1 U1. bind_as H u2 U2.
  bind_as H caseNumber Hcn. bind_as H sampleId Hsi. bind_as H sampleID HsI.
  bind_as H mixNumber Hmn. bind_as H suf Hsu. bind_as H seed Hse.
  bind_as H contributors Hco. bind_as H contrib Hcl.
  simpl in H. injection H as <- <- <-.
  cbn [lift out] in *.
  destruct (find_child "databaseSearchResults" tree) as [m |]; [| done].
  destruct (find_desc "caseNumber" tree) as [cn |]; [| done].
  destruct (find_desc "sampleId" tree) as [si |]; [| done].
  destruct (find_desc "seed" tree) as [se |]; [| done].
  destruct (find_desc "contributors" tree) as [co |]; [| done].
  simpl in Hcn, Hsi, Hse, Hco. simplify_eq.
  destruct (text si) as [s |] eqn:Hts; [| done]. simplify_eq.
  unfold index in Hsu. destruct (split "_" sampleID !! 1) as [x |] eqn:Hx; [| done].
  simplify_eq.
  exists cn, si, se, co, suf. by split_and!.
Qed.

Section MoreDocuments.

Variable py_float : string -> option float.
Variable table : list (string * float).

Abbreviation parse' := (parseResultsXMLFile py_float table).

(** X1. A document without the [databaseSearchResults] child of its root is
    refused: the file name is printed, an Exception naming the file is
    raised, and nothing else of the document is read. *)
Theorem not_a_search_result file tree :
  find_child "databaseSearchResults" tree = None ->
  parse' file tree =
    Run [("Current file: " ++ file)%string]
        (Raise (Exception ("The file: " ++ file ++ " is not a DB search result file.")%string)).
Proof.
  intros Hm. unfold parseResultsXMLFile. apply bind_here. unfold header. rewrite Hm.
  eapply (bind_then _ _ tt [_] []); [done | cbv beta]. by apply bind_here.
Qed.

(** The converse of [parse_Return]. *)
Lemma parse_intro file tree sd cl sid low rows data :
  out (header file tree) = Return (sd, cl, sid) ->
  lookup_lowest table sid = Return low ->
  mapM read_result (findall_desc "stdResult" tree) = Return rows ->
  normalizer py_float sd cl low rows = Return data ->
  parse' file tree = Run (stdout (header file tree)) (Return data).
Proof.
  intros Hh Hlow Hrows Hnorm. unfold parseResultsXMLFile.
  rewrite <- (app_nil_r (stdout (header file tree))).
  eapply (bind_ok _ _ (sd, cl, sid) _ (Run [] (Return data)));
    [by destruct (header file tree) as [? []]; simplify_eq/= | cbv beta iota].
  rewrite Hlow. eapply (bind_ok _ _ low [] (Run [] (Return data))); [done | cbv beta].
  unfold find_desc. destruct (findall_desc "stdResult" tree) as [| e es] eqn:Hall.
  - simpl in *. injection Hrows as <-. by injection Hnorm as <-.
  - cbn [head]. rewrite Hrows.
    eapply (bind_ok _ _ rows [] (Run [] (Return data))); [done | cbv beta].
    apply normalizer_Return in Hnorm as (st & Hrun & <-). by rewrite Hrun.
Qed.

(** X4. A document with a readable header and a sample that is in the
    table, but without any [stdResult] element, gives the empty list. *)
Theorem no_results_no_rows file tree sd cl sid low :
  out (header file tree) = Return (sd, cl, sid) ->
  lookup_lowest table sid = Return low ->
  findall_desc "stdResult" tree = [] ->
  parse' file tree = Run (stdout (header file tree)) (Return []).
Proof.
  intros Hh Hlow Hnone. eapply parse_intro; [done | done | by rewrite Hnone | done].
Qed.

(** X6. Every exported row is laid out as the header cells, the
    classification (True exactly when the label is in the contributor
    set), the template amount found for the sample, and the three cells of
    the comparison. *)
Theorem exported_row_layout file tree recs sd cl sid t :
  out (parse' file tree) = Return recs ->
  out (header file tree) = Return (sd, cl, sid) -> t ∈ recs ->
  exists low,
    lookup_lowest table sid = Return low /\
    t = sd ++ [PStr (if decide (label_of t ∈ cl) then "True" else "Non-Contributor");
               PFloat low] ++ cells (result_of t).
Proof.
  intros (sd' & cl' & sid' & low & rows & Hh & Hlow & _ & Hn)%parse_Return Hh' Ht.
  rewrite Hh' in Hh. injection Hh as <- <- <-.
  exists low. split; [done |].
  apply normalizer_trace in Hn as (ks & -> & _).
  apply list_elem_of_fmap in Ht as (k & -> & _).
  by rewrite label_of_record, result_of_record.
Qed.

Lemma mapM_read_result_raise pre e post rows err :
  mapM read_result pre = Return rows -> read_result e = Raise err ->
  mapM read_result (pre ++ e :: post) = Raise err.
Proof.
  revert rows. induction pre as [| x pre IH]; intros rows Hpre He; simpl.
  - by rewrite He.
  - simpl in Hpre. destruct (read_result x) as [r |]; [| done]. simpl in *.
    destruct (mapM read_result pre) as [rs |]; [| done].
    by rewrite (IH rs).
Qed.

(** X5. One [stdResult] element without the [caseNumber] or the [sample]
    attribute (KeyError), or without an [lr] child (AttributeError), fails
    the extraction of the whole document before any row is examined, even a
    row that the loop would have dropped. *)
Theorem incomplete_result_fails file tree sd cl sid low pre e post rows :
  out (header file tree) = Return (sd, cl, sid) ->
  lookup_lowest table sid = Return low ->
  findall_desc "stdResult" tree = pre ++ e :: post ->
  mapM read_result pre = Return rows ->
  (attrib e !! "caseNumber" = None \/ attrib e !! "sample" = None ->
   parse' file tree = Run (stdout (header file tree)) (Raise KeyError)) /\
  (is_Some (attrib e !! "caseNumber") -> is_Some (attrib e !! "sample") ->
   find_child "lr" e = None ->
   parse' file tree = Run (stdout (header file tree)) (Raise AttributeError)).
Proof.
  intros Hh Hlow Hall Hpre.
  assert (Hfail : forall err, read_result e = Raise err ->
            parse' file tree = Run (stdout (header file tree)) (Raise err)).
  { intros err He. unfold parseResultsXMLFile.
    rewrite <- (app_nil_r (stdout (header file tree))).
    eapply (bind_then _ _ (sd, cl, sid) _ []);
      [by destruct (header file tree) as [? []]; simplify_eq/= | cbv beta iota].
    rewrite Hlow. eapply (bind_then _ _ low [] []); [done | cbv beta].
    unfold find_desc. rewrite Hall.
    pose proof (mapM_read_result_raise _ _ post _ _ Hpre He) as Hm.
    destruct (pre ++ e :: post) as [| x xs] eqn:Hxs; [by destruct pre |].
    cbn [head]. apply bind_here. by rewrite Hm. }
  split.
  - intros Hk. apply Hfail. unfold read_result, attrib_get.
    destruct Hk as [Hk | Hk]; rewrite Hk; [done |].
    by destruct (attrib e !! "caseNumber").
  - intros [c Hc] [s Hs] Hlr. apply Hfail. unfold read_result, attrib_get.
    by rewrite Hc, Hs, Hlr.
Qed.

End MoreDocuments.

(** * Further properties of the template-amount table *)

Lemma lowest_of_cases x :
  (Forall (fun y => PrimFloat.ltb 0 y = false) x /\
   lowest_of x = Run ["caught"] (Return 0%float)) \/
  (~ Forall (fun y => PrimFloat.ltb 0 y = false) x /\
   exists m, lowest_of x = Run [] (Return m) /\ PrimFloat.ltb 0 m = true).
Proof.
  unfold lowest_of, py_min.
  destruct (positive_amounts x) as [| y ys] eqn:Hpos.
  - left. split; [| done]. apply Forall_forall. intros y Hy.
    destruct (PrimFloat.ltb 0 y) eqn:Hlt; [| done].
    assert (Hin : y ∈ positive_amounts x) by by apply positive_amounts_spec.
    rewrite Hpos in Hin. by apply elem_of_nil in Hin.
  - right.
    assert (Hall : Forall (fun y => PrimFloat.ltb 0 y = true) (y :: ys)).
    { rewrite <- Hpos. apply Forall_forall. intros z Hz.
      by apply positive_amounts_spec in Hz as [_ ?]. }
    split.
    + intros Hno. rewrite Forall_forall in Hno.
      assert (Hy : y ∈ positive_amounts x) by (rewrite Hpos; left).
      apply positive_amounts_spec in Hy as [Hy Hlt]. by rewrite (Hno y Hy) in Hlt.
    + apply Forall_cons in Hall as [Hy Hys].
      destruct (fold_min ys y Hy Hys) as (_ & Hmpos & _).
      eexists. split; [done | exact Hmpos].
Qed.

Lemma mapM_lowest_of_run rows :
  exists lows,
    mapM lowest_of rows =
      Run ((fun _ => "caught") <$>
             filter (fun x => Forall (fun y => PrimFloat.ltb 0 y = false) x) rows)
          (Return lows) /\
    Forall2 is_lowest rows lows /\
    Forall (fun m => PrimFloat.leb 0 m = true) lows.
Proof.
  induction rows as [| x rows (lows & Hrun & Hall & Hpos)].
  - exists []. by split_and!.
  - destruct (lowest_of_spec x) as (m & Hm & Hlow).
    assert (Hstep : forall s, lowest_of x = Run s (Return m) ->
              mapM lowest_of (x :: rows) =
                Run (s ++ ((fun _ => "caught") <$>
                       filter (fun x => Forall (fun y => PrimFloat.ltb 0 y = false) x) rows))
                    (Return (m :: lows))).
    { intros s Hx. cbn [mapM]. rewrite Hx, Hrun.
      unfold mbind, M_bind, bind. simpl. by rewrite app_nil_r. }
    exists (m :: lows).
    destruct (lowest_of_cases x) as [[Hno Hx] | (Hsome & m' & Hx & Hm')].
    + assert (m = 0%float) as -> by (destruct Hm as [H | H]; congruence).
      split_and!; [| by constructor | by constructor].
      rewrite filter_cons_True by done. by rewrite (Hstep _ Hx).
    + assert (m = m') as -> by (destruct Hm as [H | H]; congruence).
      split_and!; [| by constructor |].
      * rewrite filter_cons_False by done. by rewrite (Hstep _ Hx).
      * constructor; [| done]. rewrite leb_spec. rewrite ltb_spec in Hm'.
        revert Hm'. unfold SFleb, SFltb. by destruct (SFcompare _ _) as [[] |].
Qed.

Lemma decon_data_Return csv :
  exists lows,
    decon_data csv =
      Run ((fun _ => "caught") <$>
             filter (fun x => Forall (fun y => PrimFloat.ltb 0 y = false) x)
                    (DNA_Amounts <$> csv))
          (Return (zip (Sample_ID <$> csv) lows)) /\
    Forall2 (fun row m => is_lowest (DNA_Amounts row) m) csv lows /\
    Forall (fun m => PrimFloat.leb 0 m = true) lows.
Proof.
  destruct (mapM_lowest_of_run (DNA_Amounts <$> csv)) as (lows & Hrun & Hall & Hpos).
  exists lows. split_and!; [| by apply (Forall2_fmap_l DNA_Amounts) in Hall | done].
  unfold decon_data. rewrite Hrun. unfold mbind, M_bind, bind. simpl.
  by rewrite app_nil_r.
Qed.

(** X16. Building the table never raises; it prints one line [caught] for
    each row without an amount above zero and nothing else, keeps the sample
    ids in the order of the file, and every stored amount is at least zero
    (never negative, never NaN). *)
Theorem decon_data_runs csv :
  exists table,
    decon_data csv =
      Run ((fun _ => "caught") <$>
             filter (fun x => Forall (fun y => PrimFloat.ltb 0 y = false) x)
                    (DNA_Amounts <$> csv))
          (Return table) /\
    table.*1 = Sample_ID <$> csv /\
    Forall (fun entry => PrimFloat.leb 0 entry.2 = true) table.
Proof.
  destruct (decon_data_Return csv) as (lows & Hrun & Hall & Hpos).
  assert (Hlen : length (Sample_ID <$> csv) = length lows).
  { rewrite length_fmap. by eapply Forall2_length. }
  eexists. split_and!; [exact Hrun | apply fst_zip; lia |].
  apply (Forall_fmap snd (fun m => PrimFloat.leb 0 m = true)).
  rewrite snd_zip by lia. done.
Qed.

Lemma lookup_zip ids1 : forall sid ids2 l1 (m : float) l2,
  sid ∉ ids1 -> length l1 = length ids1 ->
  lookup_lowest (zip (ids1 ++ sid :: ids2) (l1 ++ m :: l2)) sid = Return m.
Proof.
  unfold lookup_lowest.
  induction ids1 as [| i ids1 IH]; intros sid ids2 l1 m l2 Hsid Hlen.
  - destruct l1; [| done]. simpl. by rewrite filter_cons_True.
  - destruct l1 as [| x l1]; [done |]. apply not_elem_of_cons in Hsid as [Hne Hsid].
    simpl. rewrite filter_cons_False by (simpl; congruence).
    apply IH; [done | by injection Hlen].
Qed.

(** X17. Looking a sample up in the table built from the file gives the
    lowest positive amount of the first row with that sample id, and raises
    IndexError exactly for the ids that no row carries. *)
Theorem table_lookup csv table :
  out (decon_data csv) = Return table ->
  (forall sid, sid ∉ Sample_ID <$> csv -> lookup_lowest table sid = Raise IndexError) /\
  (forall pre row post,
     csv = pre ++ row :: post -> Sample_ID row ∉ Sample_ID <$> pre ->
     exists m, lookup_lowest table (Sample_ID row) = Return m /\
               is_lowest (DNA_Amounts row) m).
Proof.
  destruct (decon_data_Return csv) as (lows & Hrun & Hall & _).
  rewrite Hrun. intros [= <-].
  assert (Hlen : length (Sample_ID <$> csv) = length lows).
  { rewrite length_fmap. by eapply Forall2_length. }
  split.
  - intros sid Hsid. apply lookup_lowest_absent. by rewrite fst_zip by lia.
  - intros pre row post -> Hfirst.
    apply Forall2_app_inv_l in Hall as (l1 & l2' & Hl1 & Hl2 & ->).
    apply Forall2_cons_inv_l in Hl2 as (m & l2 & Hm & _ & ->).
    exists m. split; [| done].
    rewrite fmap_app, fmap_cons. apply lookup_zip; [done |].
    rewrite length_fmap. symmetry. by eapply Forall2_length.
Qed.

(** * Further properties of the run *)

Section MoreRuns.

Variable py_float : string -> option float.
Variable table : list (string * float).

Abbreviation parse'' := (parseResultsXMLFile py_float table).

Lemma main_loop_ok files : forall outs acc,
  Forall2 (fun ft recs => out (parse'' ft.1 ft.2) = Return recs) files outs ->
  main_loop py_float table files acc =
    Run (flat_map (fun ft => ("Current file: " ++ ft.1)%string :: stdout (parse'' ft.1 ft.2))
                  files)
        (Return (acc ++ concat outs)).
Proof.
  induction files as [| [x tr] files IH]; intros outs acc Hall.
  - apply Forall2_nil_inv_l in Hall as ->. simpl. by rewrite app_nil_r.
  - apply Forall2_cons_inv_l in Hall as (recs & outs' & Hx & Hall & ->).
    rewrite main_loop_cons. simpl in Hx.
    eapply (bind_ok _ _ tt [_] (Run _ (Return _))); [done | cbv beta].
    eapply (bind_ok _ _ recs (stdout (parse'' x tr)) (Run _ (Return _)));
      [by destruct (parse'' x tr) as [? []]; simplify_eq/= | cbv beta].
    rewrite (IH outs' _ Hall). by rewrite <- app_assoc.
Qed.

(** X18. When every document is extracted, the run hands on the rows of
    the documents one after the other in the order of the files, and prints
    for each file its name followed by what its extraction printed. *)
Theorem main_concatenates files outs :
  Forall2 (fun ft recs => out (parse'' ft.1 ft.2) = Return recs) files outs ->
  main py_float table files =
    Run (flat_map (fun ft => ("Current file: " ++ ft.1)%string :: stdout (parse'' ft.1 ft.2))
                  files)
        (Return (concat outs)).
Proof. intros Hall. unfold main. by rewrite (main_loop_ok _ _ [] Hall). Qed.

(** X19. The first document whose extraction raises ends the run with its
    error, whatever the error is: the rows collected so far are not handed
    on, and the later files are neither printed nor read. *)
Theorem main_first_error pre file tree post arr e :
  out (main py_float table pre) = Return arr ->
  out (parse'' file tree) = Raise e ->
  main py_float table (pre ++ (file, tree) :: post) =
    Run (stdout (main py_float table pre) ++
         ("Current file: " ++ file)%string :: stdout (parse'' file tree))
        (Raise e).
Proof.
  intros Hpre He. unfold main. eapply main_loop_abort; [exact Hpre |].
  by destruct (parse'' file tree) as [? []]; simplify_eq/=.
Qed.

End MoreRuns.

(** * The further properties at concrete inputs *)

Ltac decided' := apply (bool_decide_unpack _); vm_compute; exact I.

Lemma not_a_search_result_witness :
  parseResultsXMLFile float_literals ex_table "n.xml" (Elem "report" ∅ None [])
  = Run ["Current file: n.xml"]
        (Raise (Exception "The file: n.xml is not a DB search result file.")).
Proof.
  apply (not_a_search_result float_literals ex_table "n.xml" (Elem "report" ∅ None [])).
  reflexivity.
Defined.

Lemma header_requires_witness :
  exists cn si se co suf,
    is_Some (find_child "databaseSearchResults" ex_doc) /\
    find_desc "caseNumber" ex_doc = Some cn /\
    find_desc "sampleId" ex_doc = Some si /\ text si = Some "M1_9F-21F-22M" /\
    find_desc "seed" ex_doc = Some se /\
    find_desc "contributors" ex_doc = Some co /\
    split "_" "M1_9F-21F-22M" !! 1 = Some suf /\
    ex_sampleData =
      [PStr "DB Search"; of_text (text cn); PStr "M1_9F-21F-22M";
       match find_desc "caseNotes" ex_doc with
       | Some e => of_text (text e)
       | None => PStr ""
       end;
       of_text (text se); of_text (text co); PStr (str (count "-" suf + 1))]
      ++ (PStr <$> ex_contrib).
Proof.
  apply (header_requires "a.xml" ex_doc ex_sampleData ex_contrib "M1_9F-21F-22M").
  vm_compute. reflexivity.
Defined.

Lemma single_source_contributor_witness :
  exists final tok,
    last (split "_" "SS1_12M rep2") = Some final /\ head (split " " final) = Some tok /\
    ["12M"; ""; ""; ""; ""] = [tok; ""; ""; ""; ""] /\
    stdout (header "s.xml" (document "SS1_12M rep2" []))
    = ["Current file: s.xml"; "Sample ID: SS1_12M rep2"].
Proof.
  apply (single_source_contributor "s.xml" (document "SS1_12M rep2" [])
           ([PStr "DB Search"; PStr "C-1"; PStr "SS1_12M rep2"; PStr ""; PStr "42";
             PStr "3"; PStr "1"] ++ (PStr <$> ["12M"; ""; ""; ""; ""]))
           ["12M"; ""; ""; ""; ""] "SS1_12M rep2" "SS1").
  - vm_compute. reflexivity.
  - reflexivity.
  - reflexivity.
Defined.

Lemma no_results_no_rows_witness :
  parseResultsXMLFile float_literals ex_table "a.xml" (document "M1_9F-21F-22M" [])
  = Run (stdout (header "a.xml" (document "M1_9F-21F-22M" []))) (Return []).
Proof.
  apply (no_results_no_rows float_literals ex_table "a.xml" (document "M1_9F-21F-22M" [])
           ex_sampleData ex_contrib "M1_9F-21F-22M" ex_lowest).
  - vm_compute. reflexivity.
  - vm_compute. reflexivity.
  - reflexivity.
Defined.

Lemma incomplete_result_fails_witness :
  let e := Elem "stdResult" {[ "caseNumber" := "Ref" ]} None [leaf "lr" "10"] in
  let tree := document "M1_9F-21F-22M" [e] in
  (attrib e !! "caseNumber" = None \/ attrib e !! "sample" = None ->
   parseResultsXMLFile float_literals ex_table "a.xml" tree
   = Run (stdout (header "a.xml" tree)) (Raise KeyError)) /\
  (is_Some (attrib e !! "caseNumber") -> is_Some (attrib e !! "sample") ->
   find_child "lr" e = None ->
   parseResultsXMLFile float_literals ex_table "a.xml" tree
   = Run (stdout (header "a.xml" tree)) (Raise AttributeError)).
Proof.
  apply (incomplete_result_fails float_literals ex_table "a.xml"
           (document "M1_9F-21F-22M"
              [Elem "stdResult" {[ "caseNumber" := "Ref" ]} None [leaf "lr" "10"]])
           ex_sampleData ex_contrib "M1_9F-21F-22M" ex_lowest
           [] (Elem "stdResult" {[ "caseNumber" := "Ref" ]} None [leaf "lr" "10"]) [] []).
  - vm_compute. reflexivity.
  - vm_compute. reflexivity.
  - vm_compute. reflexivity.
  - reflexivity.
Defined.

Lemma exported_row_layout_witness :
  exists low,
    lookup_lowest ex_table "M1_9F-21F-22M" = Return low /\
    ex_record "9F" "-5" =
      ex_sampleData ++
      [PStr (if decide (label_of (ex_record "9F" "-5") ∈ ex_contrib)
             then "True" else "Non-Contributor");
       PFloat low] ++ cells (result_of (ex_record "9F" "-5")).
Proof.
  apply (exported_row_layout float_literals ex_table "a.xml" ex_doc
           [ex_record "9F" "-5"; ex_record "X" "2.0"]
           ex_sampleData ex_contrib "M1_9F-21F-22M").
  - vm_compute. reflexivity.
  - vm_compute. reflexivity.
  - apply list_elem_of_here.
Defined.

Lemma output_labels_unique_witness :
  NoDup (label_of <$> [ex_record "X" "2.0"; ex_record "9F" "-5"]).
Proof.
  apply (output_labels_unique float_literals ex_sampleData ex_contrib ex_lowest
           [ex_row "X" "2.0"; ex_row "X" "5.0"; ex_row "9F" "-5"]).
  vm_compute. reflexivity.
Defined.

Lemma exported_rows_pass_filter_witness :
  exists x,
    float_of float_literals (r_lr (result_of (ex_record "9F" "-5"))) = Return x /\
    (PrimFloat.ltb LRCUTOFF x = true \/ label_of (ex_record "9F" "-5") ∈ ex_contrib).
Proof.
  apply (exported_rows_pass_filter float_literals ex_sampleData ex_contrib ex_lowest
           [ex_row "X" "2.0"; ex_row "9F" "-5"]
           [ex_record "X" "2.0"; ex_record "9F" "-5"]).
  - vm_compute. reflexivity.
  - apply list_elem_of_further, list_elem_of_here.
Defined.

Lemma reserved_label_from_alias_witness :
  label_of (ex_record "40F" "10") ≠ "Mock_6" /\
  (label_of (ex_record "40F" "10") = "40F" ->
   exists r, r ∈ [ex_row "Mock_6" "10"] /\ r_sample r = "Mock_6" /\
             r_caseNumber r = r_caseNumber (result_of (ex_record "40F" "10")) /\
             r_lr r = r_lr (result_of (ex_record "40F" "10"))).
Proof.
  apply (reserved_label_from_alias float_literals ex_sampleData ex_contrib ex_lowest
           [ex_row "Mock_6" "10"] [ex_record "40F" "10"]).
  - vm_compute. reflexivity.
  - apply list_elem_of_here.
Defined.

Lemma output_order_preserved_witness :
  sublist (result_of <$> [ex_record "X" "2.0"; ex_record "9F" "-5"])
          (rewrite_alias <$> [ex_row "X" "2.0"; ex_row "Y" "-5"; ex_row "9F" "-5"]) /\
  length [ex_record "X" "2.0"; ex_record "9F" "-5"]
  <= length [ex_row "X" "2.0"; ex_row "Y" "-5"; ex_row "9F" "-5"].
Proof.
  apply (output_order_preserved float_literals ex_sampleData ex_contrib ex_lowest).
  vm_compute. reflexivity.
Defined.

Lemma contributors_complete_witness :
  (forall t, t ∈ [ex_record "9F" "-5"] ->
             occurs (label_of t) [ex_row "Y" "-5"; ex_row "9F" "-5"]) /\
  (forall l, l ∈ ex_contrib -> occurs l [ex_row "Y" "-5"; ex_row "9F" "-5"] ->
     exists t, t ∈ [ex_record "9F" "-5"] /\ label_of t = l /\
               t !! (length ex_sampleData) = Some (PStr "True")).
Proof.
  apply (contributors_complete float_literals ex_sampleData ex_contrib ex_lowest).
  vm_compute. reflexivity.
Defined.

Lemma malformed_lr_raises_witness :
  normalizer float_literals ex_sampleData ex_contrib ex_lowest
    ([ex_row "X" "2.0"] ++ ex_row "9F" "n/a" :: [ex_row "Y" "10"])
  = Raise ValueError /\ (ValueError = ValueError \/ ValueError = TypeError).
Proof.
  apply (malformed_lr_raises float_literals ex_sampleData ex_contrib ex_lowest
           [ex_row "X" "2.0"] (ex_row "9F" "n/a") [ex_row "Y" "10"]
           [ex_record "X" "2.0"]).
  - vm_compute. reflexivity.
  - decided'.
  - rewrite occurs_cons, occurs_nil. intros [[_ H] | []]. discriminate H.
  - reflexivity.
Defined.

Lemma normalizer_errors_witness :
  (ValueError = ValueError \/ ValueError = TypeError) /\
  exists r, r ∈ [ex_row "X" "2.0"; ex_row "9F" "n/a"] /\ ~ excluded r /\
            float_of float_literals (r_lr r) = Raise ValueError.
Proof.
  apply (normalizer_errors float_literals ex_sampleData ex_contrib ex_lowest).
  vm_compute. reflexivity.
Defined.

Lemma normalizer_prefix_witness :
  exists d1 d2,
    normalizer float_literals ex_sampleData ex_contrib ex_lowest [ex_row "X" "2.0"]
    = Return d1 /\
    [ex_record "X" "2.0"; ex_record "9F" "-5"] = d1 ++ d2.
Proof.
  apply (normalizer_prefix float_literals ex_sampleData ex_contrib ex_lowest
           [ex_row "X" "2.0"] [ex_row "9F" "-5"]).
  vm_compute. reflexivity.
Defined.

Lemma table_lookup_witness :
  let csv := [CsvRow "a" [0; -1; 5; 3; 0]%float; CsvRow "a" [1]%float;
              CsvRow "b" [0]%float] in
  let table := [("a", 3%float); ("a", 1%float); ("b", 0%float)] in
  (forall sid, sid ∉ Sample_ID <$> csv -> lookup_lowest table sid = Raise IndexError) /\
  (forall pre row post,
     csv = pre ++ row :: post -> Sample_ID row ∉ Sample_ID <$> pre ->
     exists m, lookup_lowest table (Sample_ID row) = Return m /\
               is_lowest (DNA_Amounts row) m).
Proof.
  apply (table_lookup
           [CsvRow "a" [0; -1; 5; 3; 0]%float; CsvRow "a" [1]%float; CsvRow "b" [0]%float]
           [("a", 3%float); ("a", 1%float); ("b", 0%float)]).
  vm_compute. reflexivity.
Defined.

Lemma main_concatenates_witness :
  main float_literals ex_table [("a.xml", ex_doc); ("c.xml", ex_doc)]
  = Run (flat_map
           (fun ft => ("Current file: " ++ ft.1)%string
                      :: stdout (parseResultsXMLFile float_literals ex_table ft.1 ft.2))
           [("a.xml", ex_doc); ("c.xml", ex_doc)])
        (Return (concat [[ex_record "9F" "-5"; ex_record "X" "2.0"];
                         [ex_record "9F" "-5"; ex_record "X" "2.0"]])).
Proof.
  apply (main_concatenates float_literals ex_table).
  repeat (constructor; [vm_compute; reflexivity |]). constructor.
Defined.

Lemma main_first_error_witness :
  main float_literals ex_table
    ([("a.xml", ex_doc)] ++ ("n.xml", Elem "report" ∅ None []) :: [("c.xml", ex_doc)])
  = Run (stdout (main float_literals ex_table [("a.xml", ex_doc)]) ++
         "Current file: n.xml"
         :: stdout (parseResultsXMLFile float_literals ex_table "n.xml"
                      (Elem "report" ∅ None [])))
        (Raise (Exception "The file: n.xml is not a DB search result file.")).
Proof.
  apply (main_first_error float_literals ex_table [("a.xml", ex_doc)] "n.xml"
           (Elem "report" ∅ None []) [("c.xml", ex_doc)]
           [ex_record "9F" "-5"; ex_record "X" "2.0"]).
  - vm_compute. reflexivity.
  - vm_compute. reflexivity.
Defined.
